(** * Movie report pipeline: a shallow embedding and its properties

    The development follows the Python sources
    - [src/schemas.py]                (the [MovieRow] record),
    - [src/tmdb_client.py]            (the retrying fetcher),
    - [src/movie_report_pipeline.py]  (transform, task, dispatcher, [main]),
    - [src/report_io.py]              (the readers of the input file, the
                                       workbook and the dead letter queue).

    Conventions of the model.
    - A Python [int] is a [Z]; a [str] is a [string] whose characters are
      the code points below 256; a JSON document is a value of [json],
      with [JNull] standing for Python's [None].
    - A Python [float] that is a piece of data (a score) is a value of the
      runtime's carrier [pyfloat]; the builtins that the sources call on it
      are the fields of [PyRuntime].
    - A duration in seconds is a rational number: the rounding of binary
      floating point is not represented, the conversion of an [int] that no
      [float] holds is, and raises as in Python.
    - An exception is a value of [exn]; code that may raise returns a
      [result].
    - The network, the clock, the random generator and the scheduling of the
      worker threads are inputs of the model; a sleep that [time.sleep]
      accepts is taken to return. *)

From Stdlib Require Import ZArith QArith List String Ascii Bool.
From Stdlib Require Import Sorted Permutation Lia Lqa DecimalString.
Import ListNotations.

Local Open Scope string_scope.
Local Open Scope list_scope.
Local Open Scope Z_scope.

(** ** Exceptions *)

Inductive exn : Type :=
| AttributeError
| TypeError
| ValueError
| OverflowError
| IllegalCharacterError.

Definition result (A : Type) : Type := (exn + A)%type.

Definition ret {A : Type} (a : A) : result A := inr a.
Definition raise {A : Type} (e : exn) : result A := inl e.

Definition bind {A B : Type} (m : result A) (k : A -> result B) : result B :=
  match m with
  | inl e => inl e
  | inr a => k a
  end.

Notation "x <- m ;; k" := (bind m (fun x => k))
  (at level 61, m at next level, right associativity).

(** ** The builtins the sources rely on *)

Class PyRuntime : Type := {
  (** the values of Python's [float] *)
  pyfloat : Type;
  (** [float(n)] for an [int]; [None] stands for [OverflowError] *)
  float_of_int : Z -> option pyfloat;
  (** [float(s)] for a [str]; [None] stands for [ValueError] *)
  float_of_str : string -> option pyfloat;
  (** [x == 0.0], the falsy floats *)
  float_is_zero : pyfloat -> bool;
  (** [repr(x)] of a float and of a string *)
  repr_float : pyfloat -> string;
  repr_str : string -> string;
  (** [int(s)] for a [str]; [None] stands for [ValueError] *)
  int_of_str : string -> option Z
}.

(** ** Strings *)

(** The characters [str.strip()] removes, among the code points below 256. *)
Definition is_space (c : ascii) : bool :=
  let n := Z.of_nat (nat_of_ascii c) in
  (((9 <=? n) && (n <=? 13)) || ((28 <=? n) && (n <=? 32))
   || (n =? 133) || (n =? 160))%Z.

Fixpoint lstrip (s : string) : string :=
  match s with
  | EmptyString => EmptyString
  | String c s' => if is_space c then lstrip s' else s
  end.

Fixpoint rstrip (s : string) : string :=
  match s with
  | EmptyString => EmptyString
  | String c s' =>
      match rstrip s' with
      | EmptyString => if is_space c then EmptyString else String c EmptyString
      | r => String c r
      end
  end.

Definition strip (s : string) : string := rstrip (lstrip s).

Definition starts_with_space (s : string) : bool :=
  match s with
  | EmptyString => false
  | String c _ => is_space c
  end.

Fixpoint ends_with_space (s : string) : bool :=
  match s with
  | EmptyString => false
  | String c EmptyString => is_space c
  | String _ s' => ends_with_space s'
  end.

Definition str_of_int (z : Z) : string := NilZero.string_of_int (Z.to_int z).

(** ** Sorting: [list.sort(key=...)] and [sorted]

    Python's sort is stable, and on keys that are totally ordered its result
    is the one of any stable sort; the model is the stable insertion sort. *)

Section Sort.
Context {A K : Type} (key : A -> K) (leb : K -> K -> bool).

Fixpoint insert_by (x : A) (l : list A) : list A :=
  match l with
  | [] => [x]
  | y :: l' => if leb (key x) (key y) then x :: l else y :: insert_by x l'
  end.

Fixpoint sort_by (l : list A) : list A :=
  match l with
  | [] => []
  | x :: l' => insert_by x (sort_by l')
  end.

(** The order the sort puts its result in. *)
Definition le_by (x y : A) : Prop := leb (key x) (key y) = true.
End Sort.

(** The order of [str], by code points. *)
Definition str_le (a b : string) : Prop := String.leb a b = true.

(** ** JSON documents *)

Section WithRuntime.
Context {RT : PyRuntime}.

#[local] Set Warnings "-register-all".

Inductive json : Type :=
| JNull
| JBool (b : bool)
| JInt (n : Z)
| JFloat (x : pyfloat)
| JStr (s : string)
| JList (items : list json)
| JDict (entries : list (string * json)).

(** [bool(v)]: the value is truthy. *)
Definition truthy (v : json) : bool :=
  match v with
  | JNull => false
  | JBool b => b
  | JInt n => negb (n =? 0)%Z
  | JFloat x => negb (float_is_zero x)
  | JStr s => negb (s =? "")%string
  | JList items => match items with [] => false | _ => true end
  | JDict entries => match entries with [] => false | _ => true end
  end.

(** A [dict] keeps one entry per key, so the first binding of a key is the
    binding. *)
Fixpoint lookup (k : string) (entries : list (string * json)) : option json :=
  match entries with
  | [] => None
  | (k', v) :: rest => if (k =? k')%string then Some v else lookup k rest
  end.

(** [d.get(k, default)] *)
Definition dict_get (entries : list (string * json)) (k : string) (default : json) : json :=
  match lookup k entries with
  | Some v => v
  | None => default
  end.

(** [v.get(k, default)] on an arbitrary value: only a [dict] has [get]. *)
Definition py_get (v : json) (k : string) (default : json) : result json :=
  match v with
  | JDict entries => ret (dict_get entries k default)
  | _ => raise AttributeError
  end.

Fixpoint py_repr (v : json) : string :=
  match v with
  | JNull => "None"
  | JBool true => "True"
  | JBool false => "False"
  | JInt n => str_of_int n
  | JFloat x => repr_float x
  | JStr s => repr_str s
  | JList items => ("[" ++ String.concat ", " (map py_repr items) ++ "]")%string
  | JDict entries =>
      ("{" ++ String.concat ", "
                (map (fun kv => match kv with
                                | (k, v') => repr_str k ++ ": " ++ py_repr v'
                                end) entries) ++ "}")%string
  end.

(** [str(v)] *)
Definition py_str (v : json) : string :=
  match v with
  | JStr s => s
  | _ => py_repr v
  end.

(** [float(v)] *)
Definition py_float (v : json) : result pyfloat :=
  match v with
  | JNull => raise TypeError
  | JBool b =>
      match float_of_int (if b then 1 else 0) with
      | Some x => ret x
      | None => raise OverflowError
      end
  | JInt n =>
      match float_of_int n with
      | Some x => ret x
      | None => raise OverflowError
      end
  | JFloat x => ret x
  | JStr s =>
      match float_of_str s with
      | Some x => ret x
      | None => raise ValueError
      end
  | JList _ | JDict _ => raise TypeError
  end.

(** The items a [for] loop over [v] visits. *)
Definition py_iter (v : json) : result (list json) :=
  match v with
  | JList items => ret items
  | JStr s => ret (map (fun c => JStr (String c EmptyString)) (list_ascii_of_string s))
  | JDict entries => ret (map (fun kv => JStr (fst kv)) entries)
  | JNull | JBool _ | JInt _ | JFloat _ => raise TypeError
  end.

(** The values a [for] loop accepts. *)
Definition iterable (v : json) : bool :=
  match v with
  | JList _ | JStr _ | JDict _ => true
  | JNull | JBool _ | JInt _ | JFloat _ => false
  end.

(** ** [src/schemas.py] *)

Record MovieRow : Type := {
  id : Z;
  title : string;
  vote_average : option pyfloat;
  genres : list string;
  is_action : bool
}.

(** ** [src/movie_report_pipeline.py]: [make_movie_row] *)

(** The [try] block around [float(vote_average)]: [ValueError] and
    [TypeError] are caught, anything else propagates. *)
Definition vote_num_of (vote_average : json) : result (option pyfloat) :=
  match vote_average with
  | JNull => ret None
  | _ =>
      match py_float vote_average with
      | inr x => ret (Some x)
      | inl ValueError | inl TypeError => ret None
      | inl e => raise e
      end
  end.

(** The condition and the element of the list comprehension. *)
Definition genre_name_of (g : json) : option string :=
  match g with
  | JDict entries =>
      if truthy (dict_get entries "name" JNull)
      then Some (strip (py_str (dict_get entries "name" JNull)))
      else None
  | _ => None
  end.

Fixpoint genre_names_of (raw_genres : list json) : list string :=
  match raw_genres with
  | [] => []
  | g :: rest =>
      match genre_name_of g with
      | Some name => name :: genre_names_of rest
      | None => genre_names_of rest
      end
  end.

(** The entries of [genres] the transform keeps: the objects with a truthy
    [name]. *)
Definition well_formed_genre (g : json) : bool :=
  match g with
  | JDict entries => truthy (dict_get entries "name" JNull)
  | _ => false
  end.

(** The tag of an entry that is kept. *)
Definition genre_tag (g : json) : string :=
  match g with
  | JDict entries => strip (py_str (dict_get entries "name" JNull))
  | _ => ""
  end.

(** ["Action" in genre_names] *)
Definition contains (x : string) (l : list string) : bool :=
  existsb (fun y => (y =? x)%string) l.

Definition default_row (movie_id : Z) : MovieRow :=
  {| id := movie_id; title := ""; vote_average := None;
     genres := []; is_action := false |}.

Definition make_movie_row (movie_id : Z) (api_data : json) : result MovieRow :=
  if negb (truthy api_data) then ret (default_row movie_id)
  else
    title_v <- py_get api_data "title" (JStr "") ;;
    let title := py_str title_v in
    vote_average <- py_get api_data "vote_average" JNull ;;
    vote_num <- vote_num_of vote_average ;;
    raw_genres <- py_get api_data "genres" (JList []) ;;
    items <- py_iter raw_genres ;;
    let genre_names := sort_by (fun s => s) String.leb (genre_names_of items) in
    let is_action := contains "Action" genre_names in
    ret {| id := movie_id; title := title; vote_average := vote_num;
           genres := genre_names; is_action := is_action |}.

(** The values of [vote_average] the transform goes through: all but the
    [int] that [float] overflows on, the one error the [try] block does not
    catch. *)
Definition score_converts (vote_average : json) : bool :=
  match vote_average with
  | JInt n => match float_of_int n with Some _ => true | None => false end
  | JBool b =>
      match float_of_int (if b then 1 else 0) with
      | Some _ => true
      | None => false
      end
  | _ => true
  end.

(** ** [src/tmdb_client.py] *)

Inductive level : Type := INFO | WARNING | ERROR.

(** The log records of the three modules, by their format string. *)
Inductive log_msg : Type :=
| MovieNotFound (movie_id : Z)
| RetryingStatus (status_code movie_id attempt total : Z)
| UnrecoverableStatus (movie_id status_code : Z)
| NetworkError (movie_id : Z)
| AllRetriesFailed (movie_id : Z)
| NoDataFound (movie_id : Z)
| MissingApiKey
| ReadingMovieIds (input_csv : string)
| FoundMovieIds (found skipped : nat)
| NoValidMovieIds
| WritingRows (rows : nat) (output_excel : string)
| WritingFailed (total api_failures input_skips : nat) (failed_ids_csv : string)
| WroteFailedIds (output_path : string)
| ProcessingComplete (processed failed skipped : nat) (elapsed rate : Q).

(** What a thread does to the outside, in order. *)
Inductive event : Type :=
| HttpGet (url : string) (api_key language : string) (timeout : Q)
| Sleep (seconds : Q)
| Log (lvl : level) (msg : log_msg)
| WriteExcel (rows : list MovieRow) (output_path : string)
| WriteCsv (rows : list (list string)) (output_path : string).

(** What [http_session.get] does: a response with its status code and its
    JSON body, or a [requests.RequestException]. A body that is not JSON is
    not modelled. *)
Inductive http_outcome : Type :=
| Response (status_code : Z) (body : json)
| RequestException.

(** The outside of a fetch: the outcome of the request number
    [current_attempt] for [movie_id], and the draw of [random.random()]
    (a number of the interval from 0 to 1, 1 excluded) behind the sleep that
    follows it. *)
Record World : Type := {
  http_get : Z -> Z -> http_outcome;
  random : Z -> Z -> Q
}.

Record TMDBClient : Type := {
  api_key : string;
  language : string;
  request_timeout : Q;
  max_retry_attempts : Z;
  initial_backoff_seconds : Q
}.

Definition BASE_URL : string := "https://api.themoviedb.org/3".

(** [TMDBClient(api_key=...)], with the defaults of [__init__] *)
Definition new_client (key : string) : TMDBClient :=
  {| api_key := key; language := "en-US"; request_timeout := 10;
     max_retry_attempts := 3; initial_backoff_seconds := 1 |}.

(** [range(n)] *)
Definition range (n : Z) : list Z := map Z.of_nat (seq 0 (Z.to_nat n)).

(** [random.uniform(a, b)], from the draw [u] of [random.random()] *)
Definition uniform (a b u : Q) : Q := (a + (b - a) * u)%Q.

Definition is_transient (status_code : Z) : bool :=
  existsb (Z.eqb status_code) [429; 500; 502; 503; 504].

(** [time.sleep(secs)] checks its argument before it sleeps: the duration
    is turned into nanoseconds, which have to fit 64 bits, and a negative
    one is refused. *)
Definition time_sleep (secs : Q) : result (list event) :=
  let nanoseconds := (secs * inject_Z (10 ^ 9))%Q in
  if Qle_bool (inject_Z (2 ^ 63)) nanoseconds
     || negb (Qle_bool (inject_Z (- 2 ^ 63)) nanoseconds)
  then raise OverflowError
  else if negb (Qle_bool 0 secs) then raise ValueError
  else ret [Sleep secs].

(** The durations [time.sleep] accepts. *)
Definition accepted_by_sleep (secs : Q) : bool :=
  Qle_bool 0 secs
  && negb (Qle_bool (inject_Z (2 ^ 63)) (secs * inject_Z (10 ^ 9))).

Section Fetch.
Variable w : World.
Variable self : TMDBClient.
Variable movie_id : Z.

(** The duration [_wait_with_exponential_backoff] sleeps. *)
Definition total_wait_time (attempt_number : Z) : Q :=
  let exponential_delay :=
    (initial_backoff_seconds self * inject_Z (2 ^ attempt_number))%Q in
  let jitter_delay := uniform 0 (1 # 2) (random w movie_id attempt_number) in
  (exponential_delay + jitter_delay)%Q.

(** The product turns [2 ** attempt_number] into a [float]: from
    [2 ** 1024] on no [float] holds it, and the product raises
    [OverflowError] before anything is slept. *)
Definition _wait_with_exponential_backoff (attempt_number : Z)
    : result (list event) :=
  if attempt_number <? 1024 then time_sleep (total_wait_time attempt_number)
  else raise OverflowError.

(** The backoff of the attempt [attempt_number] is computed and slept. *)
Definition backoff_returns (attempt_number : Z) : bool :=
  (attempt_number <? 1024) && accepted_by_sleep (total_wait_time attempt_number).

Definition request : event :=
  HttpGet (BASE_URL ++ "/movie/" ++ str_of_int movie_id)
          (api_key self) (language self) (request_timeout self).

(** The statements after the loop. *)
Definition all_retries_failed : list event * result json :=
  ([Log ERROR (AllRetriesFailed movie_id)], ret JNull).

(** The end of an iteration that goes on: the events [so_far] of the
    iteration, the wait, then the iterations still to come; an error of the
    wait is caught by no handler and leaves the call. *)
Definition wait_then (attempt_number : Z) (so_far : list event)
    (next : list event * result json) : list event * result json :=
  match _wait_with_exponential_backoff attempt_number with
  | inl e => (so_far, inl e)
  | inr slept => (so_far ++ slept ++ fst next, snd next)
  end.

(** The loop, over the values of [current_attempt] still to come. *)
Fixpoint attempts (todo : list Z) : list event * result json :=
  match todo with
  | [] => all_retries_failed
  | current_attempt :: rest =>
      match http_get w movie_id current_attempt with
      | Response status_code body =>
          if status_code =? 200 then ([request], ret body)
          else if status_code =? 404 then
            ([request; Log WARNING (MovieNotFound movie_id)], ret JNull)
          else if is_transient status_code then
            wait_then current_attempt
              [request;
               Log WARNING (RetryingStatus status_code movie_id
                              (current_attempt + 1)
                              (max_retry_attempts self + 1))]
              (attempts rest)
          else
            ([request; Log ERROR (UnrecoverableStatus movie_id status_code)],
             ret JNull)
      | RequestException =>
          if current_attempt =? max_retry_attempts self then
            let (tr, r) := all_retries_failed in
            (request :: Log ERROR (NetworkError movie_id) :: tr, r)
          else
            wait_then current_attempt
              [request; Log ERROR (NetworkError movie_id)]
              (attempts rest)
      end
  end.

Definition fetch_movie_details : list event * result json :=
  attempts (range (max_retry_attempts self + 1)).

(** The request number [k] is one the loop goes on after: a transient
    status, or a network error before the last attempt, and a backoff that
    is slept. *)
Definition retried (k : Z) : Prop :=
  backoff_returns k = true
  /\ match http_get w movie_id k with
     | Response s _ => is_transient s = true
     | RequestException => k <> max_retry_attempts self
     end.

(** The request number [k] is one the loop returns [None] on: 404, or a
    status that is none of the handled ones. *)
Definition definitive (k : Z) : Prop :=
  match http_get w movie_id k with
  | Response s _ => s <> 200 /\ (s = 404 \/ is_transient s = false)
  | RequestException => False
  end.
End Fetch.

(** Observations on a trace. *)
Definition is_request (e : event) : bool :=
  match e with HttpGet _ _ _ _ => true | _ => false end.

(** The number of requests made. *)
Definition call_count (tr : list event) : nat :=
  List.length (filter is_request tr).

(** The durations slept, in order. *)
Fixpoint sleeps (tr : list event) : list Q :=
  match tr with
  | [] => []
  | Sleep d :: tr' => d :: sleeps tr'
  | _ :: tr' => sleeps tr'
  end.

(** The time slept in all. *)
Definition total_slept (tr : list event) : Q :=
  fold_right Qplus 0%Q (sleeps tr).

(** The durations slept right before a request, in order: the first one is
    the backoff before the first retry. *)
Fixpoint retry_delays (tr : list event) : list Q :=
  match tr with
  | [] => []
  | Sleep d :: tr' =>
      match tr' with
      | HttpGet _ _ _ _ :: _ => d :: retry_delays tr'
      | _ => retry_delays tr'
      end
  | _ :: tr' => retry_delays tr'
  end.

(** ** [src/report_io.py] *)

(** An entry of the skip list: [(raw_value, row_number, reason)]. *)
Definition skipped_row : Type := (string * Z * string)%type.

(** The input file as [csv.DictReader] presents it: [reader.fieldnames]
    once the byte order mark is off the names, which is [None] for a file
    with no line at all, and what [row.get("ID")] is on each row the reader
    yields; it yields none for an empty line. A file that cannot be opened
    or decoded is not modelled, and the log records of the readers are left
    out. *)
Record csv_input : Type := {
  fieldnames : option (list string);
  id_cells : list (option string)
}.

(** ["ID" not in reader.fieldnames]: [None] has no membership test. *)
Definition lacks_id_column (names : option (list string)) : result bool :=
  match names with
  | None => raise TypeError
  | Some l => ret (negb (existsb (String.eqb "ID") l))
  end.

(** The loop of [read_movie_ids_with_skips], with its three accumulators;
    [seen_ids] is only asked for membership. *)
Fixpoint read_rows (cells : list (option string)) (row_num : Z)
    (movie_ids seen_ids : list Z) (skipped : list skipped_row)
    : list Z * list skipped_row :=
  match cells with
  | [] => (movie_ids, skipped)
  | raw_value :: rest =>
      let id_value := strip (match raw_value with Some s => s | None => "" end) in
      if (id_value =? "")%string then
        read_rows rest (row_num + 1) movie_ids seen_ids
                  (skipped ++ [(id_value, row_num, "blank")])
      else
        match int_of_str id_value with
        | None =>
            read_rows rest (row_num + 1) movie_ids seen_ids
                      (skipped ++ [(id_value, row_num, "non-numeric")])
        | Some movie_id =>
            if movie_id <=? 0 then
              read_rows rest (row_num + 1) movie_ids seen_ids
                        (skipped ++ [(id_value, row_num, "non-positive")])
            else if existsb (Z.eqb movie_id) seen_ids then
              read_rows rest (row_num + 1) movie_ids seen_ids
                        (skipped ++ [(id_value, row_num, "duplicate")])
            else
              read_rows rest (row_num + 1) (movie_ids ++ [movie_id])
                        (movie_id :: seen_ids) skipped
        end
  end.

(** [None] is the file that does not exist. *)
Definition read_movie_ids_with_skips (file : option csv_input)
    : result (list Z * list skipped_row) :=
  match file with
  | None => ret ([], [])
  | Some f =>
      missing <- lacks_id_column (fieldnames f) ;;
      if missing then ret ([], [])
      else ret (read_rows (id_cells f) 2 [] [] [])
  end.

(** The loop of [read_movie_ids], the reader without the skip list: the
    rows it does not keep are dropped. *)
Fixpoint read_ids (cells : list (option string)) (movie_ids seen_ids : list Z)
    : list Z :=
  match cells with
  | [] => movie_ids
  | raw_value :: rest =>
      let id_value := strip (match raw_value with Some s => s | None => "" end) in
      if (id_value =? "")%string then read_ids rest movie_ids seen_ids
      else
        match int_of_str id_value with
        | None => read_ids rest movie_ids seen_ids
        | Some movie_id =>
            if movie_id <=? 0 then read_ids rest movie_ids seen_ids
            else if existsb (Z.eqb movie_id) seen_ids then
              read_ids rest movie_ids seen_ids
            else read_ids rest (movie_ids ++ [movie_id]) (movie_id :: seen_ids)
        end
  end.

Definition read_movie_ids (file : option csv_input) : result (list Z) :=
  match file with
  | None => ret []
  | Some f =>
      missing <- lacks_id_column (fieldnames f) ;;
      if missing then ret [] else ret (read_ids (id_cells f) [] [])
  end.

(** The identifier a cell of the column [ID] holds, when it holds one the
    readers keep: a positive integer, spaces around it apart. *)
Definition valid_id (raw_value : option string) : option Z :=
  match int_of_str (strip (match raw_value with Some s => s | None => "" end)) with
  | Some movie_id =>
      if (strip (match raw_value with Some s => s | None => "" end) =? "")%string
      then None
      else if movie_id <=? 0 then None else Some movie_id
  | None => None
  end.

Definition skip_reasons : list string :=
  ["blank"; "non-numeric"; "non-positive"; "duplicate"].

(** What an entry of the skip list looks like, for rows numbered from
    [first] on and fewer than [bound]. *)
Definition skip_entry_ok (first bound : Z) (entry : skipped_row) : Prop :=
  first <= snd (fst entry) < bound
  /\ In (snd entry) skip_reasons
  /\ (snd entry = "blank" -> fst (fst entry) = "").

(** The header of the file has the column [ID]. *)
Definition has_id_column (f : csv_input) : bool :=
  match fieldnames f with
  | Some names => existsb (String.eqb "ID") names
  | None => false
  end.

Definition failed_header : list string := ["ID"; "Reason"; "RowNumber"].

Definition fetch_failed_line (mid : Z) : list string :=
  [str_of_int mid; "fetch-failed"; ""].

Definition skipped_line (entry : skipped_row) : list string :=
  match entry with
  | (raw_value, row_number, reason) => [raw_value; reason; str_of_int row_number]
  end.

(** The lines [write_failed_ids] hands to the CSV writer. *)
Definition failed_lines (failed_ids : list Z) (skipped_rows : list skipped_row)
    : list (list string) :=
  failed_header
    :: map fetch_failed_line (sort_by (fun mid => mid) Z.leb failed_ids)
    ++ map skipped_line skipped_rows.

(** The file is taken to be writable: the handler of [OSError] is left
    out. *)
Definition write_failed_ids (failed_ids : list Z) (skipped_rows : list skipped_row)
    (output_path : string) : list event :=
  match failed_ids, skipped_rows with
  | [], [] => []
  | _, _ =>
      [WriteCsv (failed_lines failed_ids skipped_rows) output_path;
       Log INFO (WroteFailedIds output_path)]
  end.

(** The sheet [write_excel] fills, as [openpyxl] keeps it: the cells by row
    and column, both counted from 1, the row of the last [append] and the
    last row that holds a cell. *)
Inductive cell_value : Type :=
| NoValue
| IntValue (n : Z)
| FloatValue (x : pyfloat)
| StrValue (s : string).

Record Cell : Type := {
  value : cell_value;
  font_bold : bool;
  fill : option string
}.

Record Worksheet : Type := {
  sheet_title : string;
  freeze_panes : option string;
  cells : nat -> nat -> option Cell;
  current_row : nat;
  last_row : nat
}.

(** [Workbook().active] *)
Definition new_sheet : Worksheet :=
  {| sheet_title := "Sheet"; freeze_panes := None;
     cells := fun _ _ => None; current_row := 0; last_row := 0 |}.

Definition set_title (t : string) (sheet : Worksheet) : Worksheet :=
  {| sheet_title := t; freeze_panes := freeze_panes sheet;
     cells := cells sheet; current_row := current_row sheet;
     last_row := last_row sheet |}.

Definition set_freeze_panes (ref : string) (sheet : Worksheet) : Worksheet :=
  {| sheet_title := sheet_title sheet; freeze_panes := Some ref;
     cells := cells sheet; current_row := current_row sheet;
     last_row := last_row sheet |}.

(** [sheet.max_row] *)
Definition max_row (sheet : Worksheet) : nat := Nat.max 1 (last_row sheet).

Definition plain (v : cell_value) : Cell :=
  {| value := v; font_bold := false; fill := None |}.

(** The characters [openpyxl] refuses in a cell: the control characters
    but tab, line feed and carriage return. *)
Definition is_illegal (c : ascii) : bool :=
  let n := Z.of_nat (nat_of_ascii c) in
  ((n <=? 8) || ((11 <=? n) && (n <=? 12)) || ((14 <=? n) && (n <=? 31)))%Z.

(** [value[:n]] *)
Fixpoint prefix (n : nat) (s : string) {struct s} : string :=
  match s with
  | EmptyString => EmptyString
  | String c s' =>
      match n with
      | O => EmptyString
      | S n' => String c (prefix n' s')
      end
  end.

(** The longest string a cell holds. *)
Definition max_cell_length : nat := Z.to_nat 32767.

(** [Cell.check_string]: the string is cut to the longest a cell holds,
    and what is left is refused when it has an illegal character. *)
Definition check_string (s : string) : result string :=
  let value := prefix max_cell_length s in
  if existsb is_illegal (list_ascii_of_string value)
  then raise IllegalCharacterError
  else ret value.

(** The strings a cell takes. *)
Definition cell_accepts (s : string) : bool :=
  negb (existsb is_illegal (list_ascii_of_string (prefix max_cell_length s))).

(** The value a cell takes from the one it is given: only a string is
    checked. *)
Definition check_value (v : cell_value) : result cell_value :=
  match v with
  | StrValue s => s' <- check_string s ;; ret (StrValue s')
  | _ => ret v
  end.

Fixpoint check_values (values : list cell_value) : result (list cell_value) :=
  match values with
  | [] => ret []
  | v :: rest =>
      v' <- check_value v ;;
      rest' <- check_values rest ;;
      ret (v' :: rest')
  end.

(** The sheet with a cell per value, in the row after the last appended
    one. *)
Definition store_row (stored : list cell_value) (sheet : Worksheet) : Worksheet :=
  let row_idx := S (current_row sheet) in
  {| sheet_title := sheet_title sheet; freeze_panes := freeze_panes sheet;
     cells := fun r c =>
       if (Nat.eqb r row_idx && Nat.leb 1 c && Nat.leb c (List.length stored))%bool
       then option_map plain (nth_error stored (c - 1))
       else cells sheet r c;
     current_row := row_idx;
     last_row := match stored with
                 | [] => last_row sheet
                 | _ => Nat.max (last_row sheet) row_idx
                 end |}.

(** [sheet.append(values)]: the cells take the values one by one; a value
    that is refused raises, and the sheet is lost with the call that was
    filling it. *)
Definition append_row (values : list cell_value) (sheet : Worksheet)
    : result Worksheet :=
  stored <- check_values values ;;
  ret (store_row stored sheet).

(** [cell = sheet.cell(row, column); cell.font = bold_font;
    cell.fill = red_fill]: the cell is made when the sheet has none there. *)
Definition red : string := "FFC7CE".

Definition set_style (row col : nat) (sheet : Worksheet) : Worksheet :=
  {| sheet_title := sheet_title sheet; freeze_panes := freeze_panes sheet;
     cells := fun r c =>
       if (Nat.eqb r row && Nat.eqb c col)%bool
       then Some {| value := match cells sheet row col with
                             | Some cell => value cell
                             | None => NoValue
                             end;
                    font_bold := true; fill := Some red |}
       else cells sheet r c;
     current_row := current_row sheet;
     last_row := Nat.max (last_row sheet) row |}.

Definition headers : list string := ["ID"; "Title"; "Vote Average"; "Genres"].

(** The values of the row of a film. *)
Definition row_values (movie : MovieRow) : list cell_value :=
  let genres_text := String.concat ", " (genres movie) in
  [IntValue (id movie); StrValue (title movie);
   match vote_average movie with Some x => FloatValue x | None => NoValue end;
   StrValue genres_text].

(** The rows whose strings the cells take. *)
Definition row_accepted (movie : MovieRow) : bool :=
  cell_accepts (title movie) && cell_accepts (String.concat ", " (genres movie)).

(** The values of the row of a film as the cells keep them. *)
Definition stored_values (movie : MovieRow) : list cell_value :=
  [IntValue (id movie); StrValue (prefix max_cell_length (title movie));
   match vote_average movie with Some x => FloatValue x | None => NoValue end;
   StrValue (prefix max_cell_length (String.concat ", " (genres movie)))].

(** The cell of a film's row once the loop is done with it: bold on red
    when the film is an action film. *)
Definition styled (movie : MovieRow) (v : cell_value) : Cell :=
  {| value := v; font_bold := is_action movie;
     fill := if is_action movie then Some red else None |}.

(** The loop of [write_excel] over the rows. *)
Fixpoint write_movies (rows : list MovieRow) (sheet : Worksheet)
    : result Worksheet :=
  match rows with
  | [] => ret sheet
  | movie :: rest =>
      sheet <- append_row (row_values movie) sheet ;;
      let sheet :=
        if is_action movie then
          let current_row := max_row sheet in
          fold_left (fun sh col => set_style current_row col sh)
                    (seq 1 (List.length headers)) sheet
        else sheet in
      write_movies rest sheet
  end.

(** The sheet [write_excel] builds before it saves; the code that builds it
    is under no [try]. *)
Definition movies_sheet (rows : list MovieRow) : result Worksheet :=
  sheet <- append_row (map StrValue headers)
             (set_freeze_panes "A2" (set_title "Movies" new_sheet)) ;;
  write_movies rows sheet.

(** [write_excel], as [main] sees it: the call is recorded with the rows it
    gets, and it raises what the building of the sheet raises; the errors of
    the saving are caught inside, see [save_workbook]. *)
Definition write_excel (rows : list MovieRow) (output_path : string)
    : list event * result unit :=
  ([WriteExcel rows output_path], _ <- movies_sheet rows ;; ret tt).

(** The [try] block of [write_excel]: the workbook goes to a temporary
    file, which then replaces the output file. [workbook.save] either writes the
    temporary file or raises one of the errors the handler catches, with or
    without a file left behind; [os.replace] either moves the file or
    raises such an error and changes nothing. The result tells whether the
    error record was logged. *)
Inductive file : Type :=
| WorkbookFile (sheet : Worksheet)
| BrokenFile.






(** ** [src/movie_report_pipeline.py]: the task, the dispatcher, [main] *)

(** [os.path.join(a, b)] for a relative [b] *)
Definition path_join (a b : string) : string :=
  match a with
  | EmptyString => b
  | _ => if String.eqb (substring (String.length a - 1) 1 a) "/"
         then (a ++ b)%string else (a ++ "/" ++ b)%string
  end.

Record Config : Type := {
  config_api_key : string;
  input_csv : string;
  failed_ids_csv : string;
  output_excel : string
}.

(** [Config()], from the value of [TMDB_API_KEY] in the environment and the
    working directory. *)
Definition new_config (environ_key : option string) (cwd : string)
    : list event * result Config :=
  match environ_key with
  | None | Some EmptyString => ([Log ERROR MissingApiKey], raise ValueError)
  | Some key =>
      ([], ret {| config_api_key := key;
                  input_csv := path_join cwd "movies.csv";
                  failed_ids_csv := path_join cwd "dead_letter_queue.csv";
                  output_excel := path_join cwd "movie_data.xlsx" |})
  end.

(** The task of a worker: its events and what its future holds. *)
Definition get_movie_data (w : World) (client : TMDBClient) (movie_id : Z)
    : list event * result (option MovieRow * Z) :=
  match fetch_movie_details w client movie_id with
  | (tr, inl e) => (tr, inl e)
  | (tr, inr api_data) =>
      if negb (truthy api_data) then
        (tr ++ [Log WARNING (NoDataFound movie_id)], ret (None, movie_id))
      else
        (tr, movie_row <- make_movie_row movie_id api_data ;;
             ret (Some movie_row, movie_id))
  end.

(** The loop over [as_completed]: [future.result()] returns what the task
    returned or raises what it raised; a [MovieRow] is always truthy. *)
Fixpoint collect (completed : list (result (option MovieRow * Z)))
    (movie_rows : list MovieRow) (failed_ids : list Z)
    : result (list MovieRow * list Z) :=
  match completed with
  | [] => ret (movie_rows, failed_ids)
  | future :: rest =>
      r <- future ;;
      match r with
      | (Some movie_row, _) => collect rest (movie_rows ++ [movie_row]) failed_ids
      | (None, movie_id) => collect rest movie_rows (failed_ids ++ [movie_id])
      end
  end.

(** The dispatcher: one task per identifier; [completion] is the order in
    which the futures complete, a permutation of the identifiers submitted. *)
Definition dispatch (w : World) (client : TMDBClient) (completion : list Z)
    : result (list MovieRow * list Z) :=
  collect (map (fun mid => snd (get_movie_data w client mid)) completion) [] [].


Inductive outcome : Type :=
| Returned
| SystemExit (code : Z)
| Raised (e : exn).

(** [max(t1 - t0, 0.0)] *)
Definition elapsed_between (start_time end_time : Q) : Q :=
  if Qle_bool 0 (end_time - start_time) then (end_time - start_time)%Q else 0%Q.

Definition throughput (total_attempted : nat) (elapsed_seconds : Q) : Q :=
  if Qle_bool elapsed_seconds 0 then 0%Q
  else (inject_Z (Z.of_nat total_attempted) / elapsed_seconds)%Q.

Section Main.
(** The process environment and the input file. *)
Variable environ_key : option string.
Variable cwd : string.
Variable file : option csv_input.
(** The network and the scheduling of the pool. *)
Variable w : World.
Variable completion : list Z.
(** The two readings of [time.perf_counter()]. *)
Variable start_time end_time : Q.

(** The statements of [main] that write the dead letter queue. *)
Definition dead_letters (config : Config) (skipped_rows : list skipped_row)
    (failed_ids : list Z) : list event :=
  let total_failed_like := (List.length failed_ids + List.length skipped_rows)%nat in
  match total_failed_like with
  | O => []
  | _ =>
      Log WARNING (WritingFailed total_failed_like (List.length failed_ids)
                     (List.length skipped_rows) (failed_ids_csv config))
        :: write_failed_ids failed_ids skipped_rows (failed_ids_csv config)
  end.

(** The record of the summary. *)
Definition summary (movie_ids : list Z) (skipped_rows : list skipped_row)
    (movie_rows : list MovieRow) (failed_ids : list Z) : event :=
  let elapsed_seconds := elapsed_between start_time end_time in
  let processed_count := List.length movie_rows in
  let failed_count := List.length failed_ids in
  let skipped_count := List.length skipped_rows in
  let total_attempted := List.length movie_ids in
  let req_per_sec := throughput total_attempted elapsed_seconds in
  Log INFO (ProcessingComplete processed_count failed_count skipped_count
              elapsed_seconds req_per_sec).

(** The part of [main] after the pool has shut down; an error of
    [write_excel] is caught by no handler and ends [main] there. *)
Definition report (config : Config) (movie_ids : list Z)
    (skipped_rows : list skipped_row)
    (movie_rows : list MovieRow) (failed_ids : list Z) : list event * outcome :=
  let writing :=
    [Log INFO (WritingRows (List.length movie_rows) (output_excel config))] in
  let excel :=
    match movie_rows with
    | [] => ([], ret tt)
    | _ => write_excel (sort_by id Z.leb movie_rows) (output_excel config)
    end in
  match snd excel with
  | inl e => (writing ++ fst excel, Raised e)
  | inr _ =>
      (writing ++ fst excel ++ dead_letters config skipped_rows failed_ids
         ++ [summary movie_ids skipped_rows movie_rows failed_ids],
       Returned)
  end.

(** The events of the main thread and how it ends. *)
Definition main : list event * outcome :=
  match new_config environ_key cwd with
  | (tr, inl _) => (tr, SystemExit 1)
  | (tr, inr config) =>
      let client := new_client (config_api_key config) in
      let reading := [Log INFO (ReadingMovieIds (input_csv config))] in
      match read_movie_ids_with_skips file with
      | inl e => (tr ++ reading, Raised e)
      | inr (movie_ids, skipped_rows) =>
          let found :=
            reading
              ++ [Log INFO (FoundMovieIds (List.length movie_ids)
                              (List.length skipped_rows))] in
          match movie_ids with
          | [] => (tr ++ found ++ [Log ERROR NoValidMovieIds], Returned)
          | _ =>
              match dispatch w client completion with
              | inl e => (tr ++ found, Raised e)
              | inr (movie_rows, failed_ids) =>
                  let (reported, how) :=
                    report config movie_ids skipped_rows movie_rows failed_ids in
                  (tr ++ found ++ reported, how)
              end
          end
      end
  end.
End Main.


(** Observations on the trace of [main]: the rows handed to [write_excel],
    the lines handed to the CSV writer, and the summary record. *)
Fixpoint reported_rows (tr : list event) : option (list MovieRow) :=
  match tr with
  | [] => None
  | WriteExcel rows _ :: _ => Some rows
  | _ :: tr' => reported_rows tr'
  end.

Fixpoint reported_failures (tr : list event) : option (list (list string)) :=
  match tr with
  | [] => None
  | WriteCsv lines _ :: _ => Some lines
  | _ :: tr' => reported_failures tr'
  end.



(** The fetch for [movie_id] returns a document that is truthy. *)
Definition record_fetched (w : World) (client : TMDBClient) (movie_id : Z)
    : bool :=
  match snd (fetch_movie_details w client movie_id) with
  | inr api_data => truthy api_data
  | inl _ => false
  end.

(** What the future of the task for [movie_id] holds. *)
Definition future_of (w : World) (client : TMDBClient) (movie_id : Z)
    : result (option MovieRow * Z) :=
  snd (get_movie_data w client movie_id).

(** What the task for [movie_id] adds to each of the two containers, when
    it returns. *)
Definition rows_at (w : World) (client : TMDBClient) (movie_id : Z)
    : list MovieRow :=
  match future_of w client movie_id with
  | inr (Some movie_row, _) => [movie_row]
  | _ => []
  end.

Definition failed_at (w : World) (client : TMDBClient) (movie_id : Z) : list Z :=
  match future_of w client movie_id with
  | inr (None, mid) => [mid]
  | _ => []
  end.

End WithRuntime.

(** ** A runtime to run the model on

    Its floats are rationals; an [int] converts when it has at most 1024
    bits, and the strings that parse are the plain decimal integers. *)

Definition fits_double (n : Z) : bool := Z.log2 (Z.abs n) <? 1024.

Definition decimal_of_str (s : string) : option Z :=
  option_map Z.of_int (NilZero.int_of_string s).

#[local] Instance test_runtime : PyRuntime := {|
  pyfloat := Q;
  float_of_int := fun n =>
    if fits_double n then Some (inject_Z n) else None;
  float_of_str := fun s => option_map inject_Z (decimal_of_str s);
  float_is_zero := fun x => Qeq_bool x 0;
  repr_float := fun x =>
    (str_of_int (Qnum x) ++ "/" ++ str_of_int (Zpos (Qden x)))%string;
  repr_str := fun s => ("'" ++ s ++ "'")%string;
  int_of_str := decimal_of_str
|}.

(** The documents of [tests/test_movie_report_pipeline.py]. *)
Definition genre (gid : Z) (name : string) : json :=
  JDict [("id", JInt gid); ("name", JStr name)].

Definition fight_club_entries : list (string * json) :=
  [("id", JInt 550); ("title", JStr "Fight Club");
   ("vote_average", JFloat (84 # 10));
   ("genres", JList [genre 18 "Drama"; genre 53 "Thriller"])].

Definition fight_club : json := JDict fight_club_entries.

Definition infinity_war_genres : list json :=
  [genre 12 "Adventure"; genre 28 "Action"].

Definition infinity_war_entries : list (string * json) :=
  [("id", JInt 299536); ("title", JStr "Avengers: Infinity War");
   ("vote_average", JFloat (82 # 10));
   ("genres", JList infinity_war_genres)].

Definition infinity_war : json := JDict infinity_war_entries.

Definition spider_man : json :=
  JDict [("id", JInt 634649); ("title", JStr "Spider-Man: No Way Home");
         ("vote_average", JFloat (794 # 100));
         ("genres", JList [genre 28 "Action"; genre 12 "Adventure";
                           genre 878 "Science Fiction"])].

(** A network that answers every request for every identifier alike. *)
Definition vote_average_of (entries : list (string * json)) : option Q :=
  match lookup "vote_average" entries with
  | Some (JFloat x) => Some x
  | _ => None
  end.

(** A document whose genre entries are malformed but for one. *)
Definition malformed_genres : json :=
  JDict [("title", JStr "Untitled");
         ("genres", JList [JInt 5; JDict [("id", JInt 1)]; JStr "Drama";
                           JDict [("name", JStr "")]; genre 18 " Drama "])].

(** A populated document whose score is an integer of 401 digits. *)
Definition oversized_score_entries : list (string * json) :=
  [("id", JInt 7); ("title", JStr "Big"); ("vote_average", JInt (10 ^ 400));
   ("genres", JList [genre 18 "Drama"])].

Definition oversized_score : json := JDict oversized_score_entries.

(** A document whose own [id] is not the identifier asked for, and whose
    names have spaces around them. *)
Definition untidy : json :=
  JDict [("id", JInt 1); ("title", JStr " Heat ");
         ("vote_average", JStr "8");
         ("genres", JList [genre 80 "  Crime"; JNull; genre 18 "Drama "])].

(** The rows of [test_write_excel_formats_action_rows]. *)
Definition two_rows : list MovieRow :=
  [{| id := 1; title := "A"; vote_average := Some (75 # 10);
      genres := ["Action"]; is_action := true |};
   {| id := 2; title := "B"; vote_average := Some (6 # 1);
      genres := ["Drama"]; is_action := false |}].

Definition always (o : http_outcome) : World :=
  {| http_get := fun _ _ => o; random := fun _ _ => 1 # 4 |}.

(** A network that answers the requests for an identifier from a list, and
    with a network error once the list is used up. *)
Definition scripted (script : Z -> list http_outcome) : World :=
  {| http_get := fun mid k => nth (Z.to_nat k) (script mid) RequestException;
     random := fun _ _ => 1 # 4 |}.

(** The provider of the end-to-end scenario: two films, and 404 for any
    other identifier. *)
Definition two_films : World :=
  {| http_get := fun mid _ =>
       if mid =? 550 then Response 200 fight_club
       else if mid =? 634649 then Response 200 spider_man
       else Response 404 JNull;
     random := fun _ _ => 1 # 4 |}.

Definition three_ids : option csv_input :=
  Some {| fieldnames := Some ["ID"];
          id_cells := [Some "550"; Some "9999"; Some "634649"] |}.

Definition no_valid_id : option csv_input :=
  Some {| fieldnames := Some ["ID"];
          id_cells := [Some "invalid"; Some "-1"] |}.

(** A provider whose document for the identifier 7 has the oversized
    score, and the input with that identifier and another. *)
Definition oversized_at_7 : World :=
  {| http_get := fun mid _ =>
       if mid =? 7 then Response 200 oversized_score
       else Response 200 fight_club;
     random := fun _ _ => 1 # 4 |}.

Definition film_and_oversized : option csv_input :=
  Some {| fieldnames := Some ["ID"]; id_cells := [Some "550"; Some "7"] |}.



Definition with_retries (n : Z) (c : TMDBClient) : TMDBClient :=
  {| api_key := api_key c; language := language c;
     request_timeout := request_timeout c;
     max_retry_attempts := n;
     initial_backoff_seconds := initial_backoff_seconds c |}.

Definition with_backoff (seconds : Q) (c : TMDBClient) : TMDBClient :=
  {| api_key := api_key c; language := language c;
     request_timeout := request_timeout c;
     max_retry_attempts := max_retry_attempts c;
     initial_backoff_seconds := seconds |}.

(** * Facts about the model *)

(** ** The order of strings *)

Lemma ascii_compare_trans_lt (x y z : ascii) :
  Ascii.compare x y <> Gt -> Ascii.compare y z <> Gt ->
  Ascii.compare x z <> Gt
  /\ (Ascii.compare x z = Eq -> Ascii.compare x y = Eq /\ Ascii.compare y z = Eq).
Proof.
  unfold Ascii.compare.
  destruct (N.compare_spec (N_of_ascii x) (N_of_ascii y)) as [Hxy|Hxy|Hxy];
    destruct (N.compare_spec (N_of_ascii y) (N_of_ascii z)) as [Hyz|Hyz|Hyz];
    destruct (N.compare_spec (N_of_ascii x) (N_of_ascii z)) as [Hxz|Hxz|Hxz];
    intros H1 H2; split; intros;
    try congruence; try (now split); exfalso; lia.
Qed.

Lemma str_le_trans (a b c : string) : str_le a b -> str_le b c -> str_le a c.
Proof.
  unfold str_le, String.leb. revert b c.
  induction a as [|x a IH]; intros [|y b] [|z c]; simpl; try easy.
  intros Hab Hbc.
  assert (Hxy : Ascii.compare x y <> Gt)
    by (destruct (Ascii.compare x y); congruence).
  assert (Hyz : Ascii.compare y z <> Gt)
    by (destruct (Ascii.compare y z); congruence).
  destruct (ascii_compare_trans_lt x y z Hxy Hyz) as [Hxz Heq].
  destruct (Ascii.compare x z) eqn:E; try congruence.
  destruct (Heq eq_refl) as [E1 E2]. rewrite E1 in Hab. rewrite E2 in Hbc.
  now apply (IH b c).
Qed.

(** ** The sort *)

Section SortFacts.
Context {A K : Type} (key : A -> K) (leb : K -> K -> bool).

Abbreviation le_by := (le_by key leb).

Hypothesis leb_total : forall a b, leb a b = true \/ leb b a = true.
Hypothesis leb_trans :
  forall a b c, leb a b = true -> leb b c = true -> leb a c = true.

Lemma insert_by_perm (x : A) (l : list A) :
  Permutation (insert_by key leb x l) (x :: l).
Proof.
  induction l as [|y l IH]; simpl.
  - apply Permutation_refl.
  - destruct (leb (key x) (key y)).
    + apply Permutation_refl.
    + eapply perm_trans; [apply perm_skip, IH | apply perm_swap].
Qed.

Lemma sort_by_perm (l : list A) : Permutation (sort_by key leb l) l.
Proof.
  induction l as [|x l IH]; simpl.
  - apply perm_nil.
  - eapply perm_trans; [apply insert_by_perm | apply perm_skip, IH].
Qed.

Lemma insert_by_sorted (x : A) (l : list A) :
  StronglySorted le_by l -> StronglySorted le_by (insert_by key leb x l).
Proof.
  induction 1 as [|y l Hl IH Hy]; simpl.
  - repeat constructor.
  - destruct (leb (key x) (key y)) eqn:E.
    + constructor; [now constructor|].
      constructor; [exact E|].
      rewrite Forall_forall in *. intros z Hz.
      eapply leb_trans; [exact E | now apply Hy].
    + constructor; [exact IH|].
      rewrite Forall_forall in *. intros z Hz.
      apply (Permutation_in _ (insert_by_perm x l)) in Hz.
      destruct Hz as [<-|Hz]; [|now apply Hy].
      destruct (leb_total (key x) (key y)) as [H|H]; [congruence|exact H].
Qed.

Lemma sort_by_sorted (l : list A) : StronglySorted le_by (sort_by key leb l).
Proof.
  induction l as [|x l IH]; simpl; [constructor | now apply insert_by_sorted].
Qed.


End SortFacts.

(** ** The tests of the repository, run on the model *)

Example test_make_movie_row_happy_path :
  make_movie_row 550 fight_club
  = inr {| id := 550; title := "Fight Club"; vote_average := Some (84 # 10);
           genres := ["Drama"; "Thriller"]; is_action := false |}.
Proof. reflexivity. Qed.

Example test_make_movie_row_handles_action_genre :
  make_movie_row 299536 infinity_war
  = inr {| id := 299536; title := "Avengers: Infinity War";
           vote_average := Some (82 # 10);
           genres := ["Action"; "Adventure"]; is_action := true |}.
Proof. reflexivity. Qed.

Example test_make_movie_row_handles_missing_data :
  make_movie_row 999
    (JDict [("id", JInt 999); ("title", JStr "Movie with Missing Info")])
  = inr {| id := 999; title := "Movie with Missing Info"; vote_average := None;
           genres := []; is_action := false |}.
Proof. reflexivity. Qed.

Example test_make_movie_row_handles_not_found :
  make_movie_row 404 JNull = inr (default_row 404).
Proof. reflexivity. Qed.

Example test_make_movie_row_spiderman_real_example :
  make_movie_row 634649 spider_man
  = inr {| id := 634649; title := "Spider-Man: No Way Home";
           vote_average := Some (794 # 100);
           genres := ["Action"; "Adventure"; "Science Fiction"];
           is_action := true |}.
Proof. reflexivity. Qed.

Example test_fetch_movie_details_not_found :
  let r :=
    fetch_movie_details (always (Response 404 JNull)) (new_client "fake_key") 9999 in
  snd r = inr JNull /\ call_count (fst r) = 1%nat
  /\ hd_error (fst r)
     = Some (HttpGet "https://api.themoviedb.org/3/movie/9999" "fake_key" "en-US" 10).
Proof. repeat split; reflexivity. Qed.

Example test_fetch_movie_details_retry_on_server_error :
  let w := scripted (fun _ => [Response 500 JNull; Response 200 fight_club]) in
  let r := fetch_movie_details w (with_retries 1 (new_client "fake_key")) 550 in
  snd r = inr fight_club /\ call_count (fst r) = 2%nat.
Proof. split; reflexivity. Qed.

Example test_fetch_movie_details_exhausts_retries :
  let r :=
    fetch_movie_details (always (Response 500 JNull))
      (with_retries 2 (new_client "fake_key")) 550 in
  snd r = inr JNull /\ call_count (fst r) = 3%nat.
Proof. split; reflexivity. Qed.

Example test_fetch_movie_details_handles_network_exception_then_success :
  let w := scripted (fun _ => [RequestException; Response 200 fight_club]) in
  let r := fetch_movie_details w (new_client "fake_key") 550 in
  snd r = inr fight_club /\ call_count (fst r) = 2%nat.
Proof. split; reflexivity. Qed.

Example test_write_failed_ids_writes_expected_rows :
  failed_lines [804143; 9999999] [("399S79", 117, "non-numeric")]
  = [["ID"; "Reason"; "RowNumber"];
     ["804143"; "fetch-failed"; ""];
     ["9999999"; "fetch-failed"; ""];
     ["399S79"; "non-numeric"; "117"]].
Proof. reflexivity. Qed.

Example test_read_movie_ids_with_skips_collects_reasons :
  read_movie_ids_with_skips
    (Some {| fieldnames := Some ["ID"];
             id_cells := [Some "123"; Some " "; Some "456"; Some "123";
                          Some "-1"; Some "invalid"; Some "789"] |})
  = inr ([123; 456; 789],
         [("", 3, "blank"); ("123", 5, "duplicate"); ("-1", 6, "non-positive");
          ("invalid", 7, "non-numeric")]).
Proof. reflexivity. Qed.

(** ** The fetcher *)

Lemma transient_not_200 (s : Z) : is_transient s = true -> (s =? 200) = false.
Proof.
  unfold is_transient. simpl. intros H.
  destruct (Z.eqb_spec s 200) as [->|]; [discriminate H | reflexivity].
Qed.

Lemma transient_not_404 (s : Z) : is_transient s = true -> (s =? 404) = false.
Proof.
  unfold is_transient. simpl. intros H.
  destruct (Z.eqb_spec s 404) as [->|]; [discriminate H | reflexivity].
Qed.

Lemma range_length (n : Z) : List.length (range n) = Z.to_nat n.
Proof. unfold range. now rewrite length_map, length_seq. Qed.

Lemma range_nth (n : Z) (i : nat) (k : Z) :
  nth_error (range n) i = Some k -> k = Z.of_nat i.
Proof.
  unfold range. rewrite nth_error_map.
  destruct (nth_error (seq 0 (Z.to_nat n)) i) as [j|] eqn:E; [|discriminate].
  simpl. intros [= <-].
  assert (Hi : (i < List.length (seq 0 (Z.to_nat n)))%nat)
    by (apply nth_error_Some; congruence).
  rewrite length_seq in Hi.
  rewrite (nth_error_nth' _ 0%nat) in E by now rewrite length_seq.
  rewrite seq_nth in E by exact Hi. injection E as <-. reflexivity.
Qed.

Lemma range_In (n k : Z) : In k (range n) -> 0 <= k < n.
Proof.
  unfold range. rewrite in_map_iff. intros (j & <- & Hj).
  apply in_seq in Hj. lia.
Qed.

Lemma range_first (n : Z) : 0 < n -> exists rest, range n = 0 :: rest.
Proof.
  intros Hn. unfold range.
  destruct (Z.to_nat n) as [|m] eqn:E; [lia|].
  simpl. now eexists.
Qed.

Lemma time_sleep_accepted {RT : PyRuntime} (secs : Q) :
  accepted_by_sleep secs = true -> time_sleep secs = ret [Sleep secs].
Proof.
  unfold accepted_by_sleep, time_sleep. intros H.
  apply andb_true_iff in H. destruct H as [H0 H1].
  apply negb_true_iff in H1. rewrite H1, H0. cbn [orb negb].
  assert (Hlow : Qle_bool (inject_Z (- 2 ^ 63)) (secs * inject_Z (10 ^ 9)) = true).
  { apply Qle_bool_iff. apply Qle_bool_iff in H0.
    apply Qle_trans with 0%Q.
    - unfold Qle. simpl. lia.
    - apply Qmult_le_0_compat; [exact H0 | unfold Qle; simpl; lia]. }
  rewrite Hlow. reflexivity.
Qed.

Lemma time_sleep_refused {RT : PyRuntime} (secs : Q) :
  accepted_by_sleep secs = false ->
  exists e, time_sleep secs = raise e /\ (e = OverflowError \/ e = ValueError).
Proof.
  unfold accepted_by_sleep, time_sleep. intros H.
  destruct (Qle_bool (inject_Z (2 ^ 63)) (secs * inject_Z (10 ^ 9))
            || negb (Qle_bool (inject_Z (- 2 ^ 63)) (secs * inject_Z (10 ^ 9))))
    eqn:E; [exists OverflowError; split; [reflexivity | now left]|].
  apply orb_false_iff in E. destruct E as [E _]. rewrite E in H.
  rewrite andb_true_r in H. rewrite H.
  exists ValueError. split; [reflexivity | now right].
Qed.

Section FetchFacts.
Context {RT : PyRuntime}.
Variable w : World.
Variable self : TMDBClient.
Variable movie_id : Z.

Abbreviation loop := (attempts w self movie_id).
Abbreviation req := (request self movie_id).
Abbreviation wait := (total_wait_time w self movie_id).
Abbreviation backoff := (_wait_with_exponential_backoff w self movie_id).
Abbreviation retried := (retried w self movie_id).
Abbreviation definitive := (definitive w movie_id).

Lemma backoff_slept (k : Z) :
  backoff_returns w self movie_id k = true -> backoff k = ret [Sleep (wait k)].
Proof.
  unfold backoff_returns, _wait_with_exponential_backoff. intros H.
  apply andb_true_iff in H. destruct H as [-> H].
  now apply time_sleep_accepted.
Qed.

Lemma backoff_refused (k : Z) :
  backoff_returns w self movie_id k = false ->
  exists e, backoff k = raise e /\ (e = OverflowError \/ e = ValueError).
Proof.
  unfold backoff_returns, _wait_with_exponential_backoff. intros H.
  destruct (k <? 1024); [|exists OverflowError; split; [reflexivity | now left]].
  now apply time_sleep_refused.
Qed.

(** The end of an iteration that goes on. *)
Lemma wait_then_cases (k : Z) (so_far : list event)
    (next : list event * result json) :
  (backoff_returns w self movie_id k = true
   /\ wait_then w self movie_id k so_far next
      = (so_far ++ Sleep (wait k) :: fst next, snd next))
  \/ (backoff_returns w self movie_id k = false
      /\ exists e, wait_then w self movie_id k so_far next = (so_far, inl e)
                   /\ (e = OverflowError \/ e = ValueError)).
Proof.
  unfold wait_then. destruct (backoff_returns w self movie_id k) eqn:B.
  - left. split; [reflexivity|]. now rewrite (backoff_slept k B).
  - right. split; [reflexivity|].
    destruct (backoff_refused k B) as (e & -> & He). now exists e.
Qed.

Lemma attempts_retried (k : Z) (rest : list Z) :
  retried k ->
  exists lg,
    loop (k :: rest)
    = (req :: Log (fst lg) (snd lg) :: Sleep (wait k)
         :: fst (loop rest), snd (loop rest)).
Proof.
  unfold retried. intros [B H]. cbn [attempts].
  destruct (http_get w movie_id k) as [s body|].
  - rewrite (transient_not_200 s H), (transient_not_404 s H), H.
    unfold wait_then. rewrite (backoff_slept k B).
    now exists (WARNING, RetryingStatus s movie_id (k + 1)
                           (max_retry_attempts self + 1)).
  - apply Z.eqb_neq in H. rewrite H.
    unfold wait_then. rewrite (backoff_slept k B).
    now exists (ERROR, NetworkError movie_id).
Qed.


Lemma attempts_definitive (k : Z) (rest : list Z) :
  definitive k ->
  exists lg, loop (k :: rest) = ([req; Log (fst lg) (snd lg)], inr JNull).
Proof.
  unfold definitive. simpl.
  destruct (http_get w movie_id k) as [s body|]; [|intros []].
  intros [H200 H]. apply Z.eqb_neq in H200. rewrite H200.
  destruct H as [->|H].
  - now exists (WARNING, MovieNotFound movie_id).
  - destruct (s =? 404).
    + now exists (WARNING, MovieNotFound movie_id).
    + rewrite H. now exists (ERROR, UnrecoverableStatus movie_id s).
Qed.

(** One iteration of the loop: either it is the last one, with one request
    and no sleep, or it sleeps and the next one goes on. *)
Lemma attempts_shape (k : Z) (rest : list Z) :
  (call_count (fst (loop (k :: rest))) = 1%nat
   /\ sleeps (fst (loop (k :: rest))) = []
   /\ exists tr, fst (loop (k :: rest)) = req :: tr)
  \/ (backoff_returns w self movie_id k = true
      /\ exists lg,
           loop (k :: rest)
           = (req :: Log (fst lg) (snd lg) :: Sleep (wait k)
                :: fst (loop rest), snd (loop rest))).
Proof.
  cbn [attempts].
  destruct (http_get w movie_id k) as [s body|].
  - destruct (s =? 200); [left; repeat split; now eexists|].
    destruct (s =? 404); [left; repeat split; now eexists|].
    destruct (is_transient s); [|left; repeat split; now eexists].
    destruct (wait_then_cases k
                [req; Log WARNING (RetryingStatus s movie_id (k + 1)
                                     (max_retry_attempts self + 1))]
                (loop rest)) as [[B ->]|(_ & e & -> & _)].
    + right. split; [exact B|].
      now exists (WARNING, RetryingStatus s movie_id (k + 1)
                             (max_retry_attempts self + 1)).
    + left. repeat split; now eexists.
  - destruct (k =? max_retry_attempts self); [left; repeat split; now eexists|].
    destruct (wait_then_cases k [req; Log ERROR (NetworkError movie_id)]
                (loop rest)) as [[B ->]|(_ & e & -> & _)].
    + right. split; [exact B|]. now exists (ERROR, NetworkError movie_id).
    + left. repeat split; now eexists.
Qed.

(** Every iteration of the loop starts with the request. *)
Lemma attempts_head (k : Z) (rest : list Z) :
  exists tr, fst (loop (k :: rest)) = req :: tr.
Proof.
  destruct (attempts_shape k rest) as [(_ & _ & H)|(_ & lg & ->)];
    [exact H | now eexists].
Qed.

(** When every request still to come is retried, all of them are made,
    each one is followed by a sleep, and the call returns [None]. *)
Lemma attempts_all_retried (todo : list Z) :
  Forall retried todo ->
  snd (loop todo) = inr JNull
  /\ call_count (fst (loop todo)) = List.length todo
  /\ sleeps (fst (loop todo)) = map wait todo.
Proof.
  induction 1 as [|k rest Hk _ IH].
  - repeat split.
  - destruct (attempts_retried k rest Hk) as [lg ->].
    destruct IH as (IH1 & IH2 & IH3). cbn [fst snd].
    repeat split.
    + exact IH1.
    + unfold call_count in *. simpl. now rewrite IH2.
    + simpl. now rewrite IH3.
Qed.

(** What the requests that were retried put before the rest of the loop. *)
Lemma attempts_after_retried (pre todo : list Z) :
  Forall retried pre ->
  snd (loop (pre ++ todo)) = snd (loop todo)
  /\ call_count (fst (loop (pre ++ todo)))
     = (List.length pre + call_count (fst (loop todo)))%nat
  /\ sleeps (fst (loop (pre ++ todo))) = map wait pre ++ sleeps (fst (loop todo)).
Proof.
  induction 1 as [|j pre Hj _ IH]; [repeat split|].
  simpl app. destruct (attempts_retried j (pre ++ todo) Hj) as [lg ->].
  destruct IH as (IH1 & IH2 & IH3). cbn [fst snd]. repeat split.
  - exact IH1.
  - unfold call_count in *. simpl. now rewrite IH2.
  - simpl. now rewrite IH3.
Qed.

(** A request with a definitive status is the last event of the call but
    for its log record: the requests before it were retried, and nothing
    is slept after it. *)
Lemma definitive_status_stops (pre : list Z) (k : Z) (post : list Z) :
  Forall retried pre -> definitive k ->
  snd (loop (pre ++ k :: post)) = inr JNull
  /\ call_count (fst (loop (pre ++ k :: post))) = S (List.length pre)
  /\ sleeps (fst (loop (pre ++ k :: post))) = map wait pre.
Proof.
  intros Hpre Hk.
  destruct (attempts_after_retried pre (k :: post) Hpre) as (H1 & H2 & H3).
  destruct (attempts_definitive k post Hk) as [lg E].
  rewrite H1, H2, H3, E. cbn [fst snd]. repeat split.
  - unfold call_count. simpl. lia.
  - simpl. now rewrite app_nil_r.
Qed.


Lemma retry_delays_retried (lvl : level) (msg : log_msg) (d : Q)
    (tr : list event) :
  retry_delays (req :: Log lvl msg :: Sleep d :: req :: tr)
  = d :: retry_delays (req :: tr).
Proof. reflexivity. Qed.

Lemma call_count_retried (lvl : level) (msg : log_msg) (d : Q)
    (tr : list event) :
  call_count (req :: Log lvl msg :: Sleep d :: tr) = S (call_count tr).
Proof. reflexivity. Qed.

(** One iteration of the loop, seen from the trace: either it is the last
    one to make a request, or it sleeps and the next one goes on. *)
Lemma attempts_step (k : Z) (rest : list Z) :
  (retry_delays (fst (loop (k :: rest))) = []
   /\ call_count (fst (loop (k :: rest))) = 1%nat)
  \/ (rest <> []
      /\ retry_delays (fst (loop (k :: rest)))
         = wait k :: retry_delays (fst (loop rest))
      /\ call_count (fst (loop (k :: rest)))
         = S (call_count (fst (loop rest)))).
Proof.
  destruct (attempts_shape k rest) as [(H1 & H2 & tr & E)|(_ & lg & E)].
  - left. split; [|exact H1].
    assert (Hs : forall t, sleeps t = [] -> retry_delays t = []).
    { induction t as [|e t IH]; [reflexivity|].
      destruct e; cbn [sleeps retry_delays]; try exact IH. discriminate. }
    now apply Hs.
  - rewrite E. cbn [fst]. destruct rest as [|k' rest'].
    + left. split; reflexivity.
    + right. split; [discriminate|].
      destruct (attempts_head k' rest') as [tr' E'].
      rewrite call_count_retried, E', retry_delays_retried.
      split; reflexivity.
Qed.

(** Every request but the first comes right after a sleep. *)
Lemma retry_delays_count (k : Z) (rest : list Z) :
  call_count (fst (loop (k :: rest)))
  = S (List.length (retry_delays (fst (loop (k :: rest))))).
Proof.
  revert k. induction rest as [|k' rest' IH]; intros k.
  - destruct (attempts_step k []) as [[E1 E2]|(Hne & E1 & E2)];
      [now rewrite E1, E2 | now destruct Hne].
  - destruct (attempts_step k (k' :: rest')) as [[E1 E2]|(Hne & E1 & E2)];
      rewrite E1, E2; [reflexivity|].
    cbn [List.length]. now rewrite IH.
Qed.

(** The request that opens retry [i], the request number [i + 1], comes
    right after the sleep of the attempt before it. *)
Lemma attempts_retry (todo : list Z) (i : nat) :
  (S i < call_count (fst (loop todo)))%nat ->
  exists k pre post,
    nth_error todo i = Some k
    /\ backoff_returns w self movie_id k = true
    /\ fst (loop todo) = pre ++ Sleep (wait k) :: req :: post
    /\ call_count pre = S i.
Proof.
  revert i. induction todo as [|k rest IH]; intros i Hi.
  - cbn in Hi. lia.
  - destruct (attempts_shape k rest) as [(H1 & _)|(B & lg & E)]; [lia|].
    rewrite E in *. cbn [fst] in *. rewrite call_count_retried in Hi.
    destruct rest as [|k' rest']; [cbn in Hi; lia|].
    destruct (attempts_head k' rest') as [tr' E'].
    destruct i as [|i].
    + exists k, [req; Log (fst lg) (snd lg)], tr'.
      rewrite E'. repeat split. exact B.
    + destruct (IH i ltac:(lia)) as (k1 & pre & post & Hk1 & B1 & Etr & Hpre).
      exists k1, (req :: Log (fst lg) (snd lg) :: Sleep (wait k) :: pre), post.
      rewrite Etr. repeat split; [exact Hk1 | exact B1 |].
      rewrite call_count_retried. now rewrite Hpre.
Qed.

End FetchFacts.

Lemma uniform_range (a b u : Q) :
  (a <= b)%Q -> (0 <= u)%Q -> (u < 1)%Q ->
  (a <= uniform a b u)%Q /\ (uniform a b u <= b)%Q.
Proof.
  unfold uniform. intros Hab H0 H1.
  assert (H : (0 <= (b - a) * u)%Q) by (apply Qmult_le_0_compat; lra).
  assert (H' : ((b - a) * u <= (b - a) * 1)%Q)
    by (apply Qmult_le_l_weak || (rewrite (Qmult_comm (b - a) u), (Qmult_comm (b - a) 1);
        apply Qmult_le_compat_r; lra)).
  split; lra.
Qed.

(** * The fetcher: retries, short circuit, backoff *)

(** C3, amended. With a retry budget [N] (at least 0) whose backoffs, after
    the attempts 0 to [N], are all computed and slept, when every request
    for the identifier is answered with a status of the transient set, the
    fetcher makes exactly [N + 1] requests and then returns [None]: it
    raises nothing. *)
Theorem fetch_exhausts_retries {RT : PyRuntime}
    (w : World) (self : TMDBClient) (movie_id : Z) :
  0 <= max_retry_attempts self ->
  (forall k, 0 <= k <= max_retry_attempts self ->
     exists s body,
       http_get w movie_id k = Response s body /\ is_transient s = true) ->
  (forall k, 0 <= k <= max_retry_attempts self ->
     backoff_returns w self movie_id k = true) ->
  snd (fetch_movie_details w self movie_id) = inr JNull
  /\ Z.of_nat (call_count (fst (fetch_movie_details w self movie_id)))
     = max_retry_attempts self + 1.
Proof.
  intros HN Hall Hwait. unfold fetch_movie_details.
  destruct (attempts_all_retried w self movie_id
              (range (max_retry_attempts self + 1))) as (H1 & H2 & _).
  - apply Forall_forall. intros k Hk. apply range_In in Hk.
    unfold retried. split; [apply Hwait; lia|].
    destruct (Hall k ltac:(lia)) as (s & body & -> & Hs).
    exact Hs.
  - split; [exact H1|]. rewrite H2, range_length. lia.
Qed.

Lemma fetch_exhausts_retries_witness :
  let self := with_retries 2 (new_client "fake_key") in
  let w := always (Response 500 JNull) in
  snd (fetch_movie_details w self 550) = inr JNull
  /\ Z.of_nat (call_count (fst (fetch_movie_details w self 550))) = 3.
Proof.
  apply (fetch_exhausts_retries (always (Response 500 JNull))
           (with_retries 2 (new_client "fake_key")) 550).
  - simpl. lia.
  - intros k _. exists 500, JNull. split; reflexivity.
  - intros k Hk. simpl in Hk.
    assert (Hk' : k = 0 \/ k = 1 \/ k = 2) by lia.
    destruct Hk' as [->|[->| ->]]; reflexivity.
Defined.

(** C3, as stated, fails. With the default backoff of one second and a
    budget of 34 retries, the sleep after the attempt 34 would last more
    than [2 ** 34] seconds, which [time.sleep] refuses with
    [OverflowError]; and with a budget of 1024 retries the delay after the
    attempt 1024 cannot be computed, however short the initial backoff,
    here [2.0 ** -1000] seconds; and with an initial backoff that is
    negative, here of one second, the first sleep is refused with
    [ValueError]. Every request is answered with 500, and the call raises
    instead of returning [None]. *)
Lemma large_retry_budget_raises :
  (let r := fetch_movie_details (always (Response 500 JNull))
              (with_retries 34 (new_client "fake_key")) 550 in
   snd r = inl OverflowError /\ call_count (fst r) = 35%nat)
  /\ (let r := fetch_movie_details (always (Response 500 JNull))
                 (with_backoff (1 / inject_Z (2 ^ 1000))
                    (with_retries 1024 (new_client "fake_key"))) 550 in
      snd r = inl OverflowError /\ call_count (fst r) = 1025%nat)
  /\ (let r := fetch_movie_details (always (Response 500 JNull))
                 (with_backoff (-1) (new_client "fake_key")) 550 in
      snd r = inl ValueError /\ call_count (fst r) = 1%nat).
Proof. split; [|split]; split; vm_compute; reflexivity. Qed.

(** C4. When the first request is answered with 404, or with a status that
    is neither 200 nor 404 nor one of the transient set, the fetcher returns
    [None] after that one request: no second request, no sleep. *)
Theorem fetch_definitive_status_one_attempt {RT : PyRuntime}
    (w : World) (self : TMDBClient) (movie_id s : Z) (body : json) :
  0 <= max_retry_attempts self ->
  http_get w movie_id 0 = Response s body ->
  s = 404 \/ (s <> 200 /\ s <> 404 /\ is_transient s = false) ->
  snd (fetch_movie_details w self movie_id) = inr JNull
  /\ call_count (fst (fetch_movie_details w self movie_id)) = 1%nat
  /\ sleeps (fst (fetch_movie_details w self movie_id)) = [].
Proof.
  intros HN Hget Hs. unfold fetch_movie_details.
  destruct (range_first (max_retry_attempts self + 1)) as [rest ->]; [lia|].
  apply (definitive_status_stops w self movie_id [] 0 rest); [constructor|].
  unfold definitive. rewrite Hget.
  destruct Hs as [->|(H200 & H404 & Ht)]; [split; [lia | now left]|].
  split; [exact H200 | now right].
Qed.

Lemma fetch_definitive_status_one_attempt_witness :
  let self := new_client "fake_key" in
  let w := always (Response 403 JNull) in
  snd (fetch_movie_details w self 9999) = inr JNull
  /\ call_count (fst (fetch_movie_details w self 9999)) = 1%nat
  /\ sleeps (fst (fetch_movie_details w self 9999)) = [].
Proof.
  apply (fetch_definitive_status_one_attempt (always (Response 403 JNull))
           (new_client "fake_key") 9999 403 JNull).
  - simpl. lia.
  - reflexivity.
  - right. repeat split; [lia | lia].
Defined.

(** C5. Retries are counted from 0, the first retry being retry 0, which
    opens with the second request of the call. Every retry [k] that takes
    place comes right after its sleep: the event before the request that
    opens it is a sleep of [initial_backoff_seconds * 2 ^ k] seconds plus
    the jitter [random.uniform(0, 0.5)], a number between 0 and 0.5. This
    holds for every [k], so for every [k] from 1 on. *)
Theorem backoff_before_retry {RT : PyRuntime}
    (w : World) (self : TMDBClient) (movie_id : Z) (k : nat) :
  (forall j, (0 <= random w movie_id j)%Q /\ (random w movie_id j < 1)%Q) ->
  (S k < call_count (fst (fetch_movie_details w self movie_id)))%nat ->
  exists jitter pre post,
    jitter = uniform 0 (1 # 2) (random w movie_id (Z.of_nat k))
    /\ (0 <= jitter)%Q /\ (jitter <= 1 # 2)%Q
    /\ fst (fetch_movie_details w self movie_id)
       = pre
           ++ Sleep (initial_backoff_seconds self * inject_Z (2 ^ Z.of_nat k)
                     + jitter)
           :: request self movie_id :: post
    /\ call_count pre = S k.
Proof.
  intros Hrand Hk. unfold fetch_movie_details in *.
  destruct (attempts_retry w self movie_id _ k Hk)
    as (k' & pre & post & Hk' & _ & E & Hpre).
  apply range_nth in Hk'. subst k'.
  exists (uniform 0 (1 # 2) (random w movie_id (Z.of_nat k))), pre, post.
  destruct (Hrand (Z.of_nat k)) as [H0 H1].
  destruct (uniform_range 0 (1 # 2) _ ltac:(lra) H0 H1) as [Hl Hu].
  repeat split; assumption.
Qed.

Lemma backoff_before_retry_witness :
  let self := with_retries 2 (new_client "fake_key") in
  let w := always (Response 500 JNull) in
  exists jitter pre post,
    jitter = uniform 0 (1 # 2) (random w 550 (Z.of_nat 1))
    /\ (0 <= jitter)%Q /\ (jitter <= 1 # 2)%Q
    /\ fst (fetch_movie_details w self 550)
       = pre
           ++ Sleep (initial_backoff_seconds self * inject_Z (2 ^ Z.of_nat 1)
                     + jitter)
           :: request self 550 :: post
    /\ call_count pre = 2%nat.
Proof.
  apply (backoff_before_retry (always (Response 500 JNull))
           (with_retries 2 (new_client "fake_key")) 550 1).
  - intros j. split; simpl; [discriminate | reflexivity].
  - apply le_n.
Defined.

(** * The transform *)

Section TransformFacts.
Context {RT : PyRuntime}.

Lemma contains_In (x : string) (l : list string) :
  contains x l = true <-> In x l.
Proof.
  unfold contains. rewrite existsb_exists. split.
  - intros (y & Hy & E). apply String.eqb_eq in E. now subst.
  - intros H. exists x. split; [exact H | apply String.eqb_refl].
Qed.

(** The coercion of the score raises nothing but [OverflowError]. *)
Lemma vote_num_of_raises (v : json) (e : exn) :
  vote_num_of v = inl e -> e = OverflowError /\ score_converts v = false.
Proof.
  destruct v as [| b | n | x | s | items | entries]; simpl; try discriminate.
  - destruct (float_of_int (if b then 1 else 0)); simpl; [discriminate|].
    now intros [= <-].
  - destruct (float_of_int n); simpl; [discriminate|]. now intros [= <-].
  - destruct (float_of_str s); discriminate.
Qed.

Lemma score_converts_returns (v : json) :
  score_converts v = true ->
  exists score,
    vote_num_of v = inr score
    /\ (v = JNull -> score = None)
    /\ (forall e, py_float v = inl e -> score = None).
Proof.
  intros H. destruct (vote_num_of v) as [e|score] eqn:E.
  - apply vote_num_of_raises in E. destruct E as [_ E]. congruence.
  - exists score. split; [reflexivity|]. split.
    + intros ->. simpl in E. now injection E as <-.
    + intros e He. clear H.
      destruct v as [| b | n | x | s | items | entries];
        simpl in *; unfold ret, raise in *; try congruence.
      * destruct (float_of_int (if b then 1 else 0)); simpl in *; congruence.
      * destruct (float_of_int n); simpl in *; congruence.
      * destruct (float_of_str s); simpl in *; congruence.
Qed.

(** The transform on a document that is not empty. *)
Lemma make_movie_row_document (movie_id : Z) (entries : list (string * json))
    (items : list json) (score : option pyfloat) :
  entries <> [] ->
  py_iter (dict_get entries "genres" (JList [])) = inr items ->
  vote_num_of (dict_get entries "vote_average" JNull) = inr score ->
  make_movie_row movie_id (JDict entries)
  = inr {| id := movie_id;
           title := py_str (dict_get entries "title" (JStr ""));
           vote_average := score;
           genres := sort_by (fun s => s) String.leb (genre_names_of items);
           is_action :=
             contains "Action"
               (sort_by (fun s => s) String.leb (genre_names_of items)) |}.
Proof.
  intros Hne Hit Hv. unfold make_movie_row.
  destruct entries as [|e es]; [congruence|].
  cbn [truthy negb py_get bind ret].
  rewrite Hv. cbn [bind]. rewrite Hit. reflexivity.
Qed.

Lemma lookup_Some_nonempty (k : string) (entries : list (string * json))
    (v : json) : lookup k entries = Some v -> entries <> [].
Proof. destruct entries; [discriminate | discriminate]. Qed.
End TransformFacts.

(** C7. On a document with a [genres] list, whose score [float] converts or
    refuses with an error the transform catches, the row's genres are in
    ascending order of the strings (compared by code points, so with the
    case), they are the names collected, each as often as it was collected,
    and [is_action] is true exactly when "Action" is one of them. *)
Theorem genres_sorted_and_flagged {RT : PyRuntime}
    (movie_id : Z) (entries : list (string * json)) (items : list json)
    (score : option pyfloat) :
  lookup "genres" entries = Some (JList items) ->
  vote_num_of (dict_get entries "vote_average" JNull) = inr score ->
  exists row,
    make_movie_row movie_id (JDict entries) = inr row
    /\ StronglySorted str_le (genres row)
    /\ Permutation (genres row) (genre_names_of items)
    /\ (is_action row = true <-> In "Action" (genres row)).
Proof.
  intros Hg Hv.
  rewrite (make_movie_row_document movie_id entries items score).
  - eexists. split; [reflexivity|]. cbn [genres is_action].
    split; [|split].
    + apply (sort_by_sorted (fun s : string => s) String.leb).
      * apply String.leb_total.
      * exact str_le_trans.
    + apply sort_by_perm.
    + apply contains_In.
  - eapply lookup_Some_nonempty; eassumption.
  - unfold dict_get. now rewrite Hg.
  - exact Hv.
Qed.

Lemma genres_sorted_and_flagged_witness :
  exists row,
    make_movie_row 299536 infinity_war = inr row
    /\ StronglySorted str_le (genres row)
    /\ Permutation (genres row) ["Adventure"; "Action"]
    /\ (is_action row = true <-> In "Action" (genres row)).
Proof.
  apply (genres_sorted_and_flagged 299536 infinity_war_entries
           infinity_war_genres (vote_average_of infinity_war_entries));
    reflexivity.
Defined.

(** C8. The claim fails on a populated document whose score is an integer
    that no [float] holds: [float(vote_average)] raises [OverflowError]
    there, the [try] block catches [ValueError] and [TypeError] only, and
    the transform raises where the claim has it return a row without a
    score. *)
Theorem make_movie_row_score_overflow {RT : PyRuntime}
    (movie_id : Z) (entries : list (string * json)) (n : Z) :
  lookup "vote_average" entries = Some (JInt n) ->
  float_of_int n = None ->
  make_movie_row movie_id (JDict entries) = inl OverflowError.
Proof.
  intros Hv Hn.
  assert (Ht : truthy (JDict entries) = true)
    by (destruct entries; [discriminate Hv | reflexivity]).
  unfold make_movie_row. rewrite Ht. cbn [negb py_get bind ret].
  unfold dict_get. rewrite Hv.
  cbn [vote_num_of py_float]. rewrite Hn. reflexivity.
Qed.

Lemma make_movie_row_score_overflow_witness :
  make_movie_row 7 oversized_score = inl OverflowError.
Proof.
  apply (make_movie_row_score_overflow 7 oversized_score_entries (10 ^ 400));
    reflexivity.
Defined.

(** * The dispatcher *)

Section DispatchFacts.
Context {RT : PyRuntime}.
Variable w : World.
Variable client : TMDBClient.

Abbreviation api_data_of mid := (snd (fetch_movie_details w client mid)).

Lemma make_movie_row_id (movie_id : Z) (api_data : json) (row : MovieRow) :
  make_movie_row movie_id api_data = inr row -> id row = movie_id.
Proof.
  unfold make_movie_row.
  destruct (negb (truthy api_data)); [now intros [= <-]|].
  unfold bind.
  repeat match goal with
         | |- context [match ?x with inl _ => _ | inr _ => _ end] =>
             destruct x; [discriminate|]
         end.
  now intros [= <-].
Qed.

(** An error of the fetch is the error of the task. *)
Lemma future_of_fetch_raises (movie_id : Z) (e : exn) :
  api_data_of movie_id = inl e -> future_of w client movie_id = inl e.
Proof.
  unfold future_of, get_movie_data. intros H.
  destruct (fetch_movie_details w client movie_id) as [tr [e'|api_data]];
    cbn [snd] in H; [|discriminate]. now injection H as ->.
Qed.

Lemma future_of_falsy (movie_id : Z) (api_data : json) :
  api_data_of movie_id = inr api_data -> truthy api_data = false ->
  future_of w client movie_id = inr (None, movie_id).
Proof.
  unfold future_of, get_movie_data. intros H Ht.
  destruct (fetch_movie_details w client movie_id) as [tr [e'|api_data']];
    cbn [snd] in H; [discriminate|]. injection H as ->. now rewrite Ht.
Qed.

Lemma future_of_truthy (movie_id : Z) (api_data : json) :
  api_data_of movie_id = inr api_data -> truthy api_data = true ->
  future_of w client movie_id
  = (movie_row <- make_movie_row movie_id api_data ;;
     ret (Some movie_row, movie_id)).
Proof.
  unfold future_of, get_movie_data. intros H Ht.
  destruct (fetch_movie_details w client movie_id) as [tr [e'|api_data']];
    cbn [snd] in H; [discriminate|]. injection H as ->. now rewrite Ht.
Qed.

(** What a future holds tells what the fetch returned. *)
Lemma future_of_row (movie_id mid : Z) (row : MovieRow) :
  future_of w client movie_id = inr (Some row, mid) ->
  mid = movie_id /\ id row = movie_id
  /\ exists api_data,
       api_data_of movie_id = inr api_data
       /\ truthy api_data = true
       /\ make_movie_row movie_id api_data = inr row.
Proof.
  destruct (api_data_of movie_id) as [e|api_data] eqn:Ea.
  - rewrite (future_of_fetch_raises _ _ Ea). discriminate.
  - destruct (truthy api_data) eqn:E.
    + rewrite (future_of_truthy _ _ Ea E). unfold bind.
      destruct (make_movie_row movie_id api_data) as [e|r] eqn:Er;
        [discriminate|].
      intros [= -> <-]. pose proof (make_movie_row_id _ _ _ Er) as Hid.
      split; [reflexivity|]. split; [exact Hid|]. now exists api_data.
    + rewrite (future_of_falsy _ _ Ea E). discriminate.
Qed.

Lemma future_of_none (movie_id mid : Z) :
  future_of w client movie_id = inr (None, mid) ->
  mid = movie_id
  /\ exists api_data,
       api_data_of movie_id = inr api_data /\ truthy api_data = false.
Proof.
  destruct (api_data_of movie_id) as [e|api_data] eqn:Ea.
  - rewrite (future_of_fetch_raises _ _ Ea). discriminate.
  - destruct (truthy api_data) eqn:E.
    + rewrite (future_of_truthy _ _ Ea E). unfold bind.
      destruct (make_movie_row movie_id api_data); discriminate.
    + rewrite (future_of_falsy _ _ Ea E). intros [= <-].
      split; [reflexivity|]. now exists api_data.
Qed.

Lemma rows_at_In (movie_id : Z) (row : MovieRow) :
  In row (rows_at w client movie_id) <->
  future_of w client movie_id = inr (Some row, movie_id).
Proof.
  unfold rows_at.
  destruct (future_of w client movie_id) as [e|[[r|] mid]] eqn:E; simpl.
  - split; [tauto | discriminate].
  - destruct (future_of_row _ _ _ E) as [-> _].
    split; [intros [->|[]]; reflexivity | intros [= ->]; now left].
  - split; [tauto | discriminate].
Qed.

Lemma failed_at_In (movie_id mid : Z) :
  In mid (failed_at w client movie_id) <->
  mid = movie_id /\ future_of w client movie_id = inr (None, movie_id).
Proof.
  unfold failed_at.
  destruct (future_of w client movie_id) as [e|[[r|] m]] eqn:E; simpl.
  - split; [tauto | intros [_ H]; discriminate].
  - split; [tauto | intros [_ H]; discriminate].
  - destruct (future_of_none _ _ E) as [-> _].
    split; [intros [<-|[]]; auto | intros [-> _]; now left].
Qed.

(** The loop of the collector, when no future raises. *)
Lemma collect_returns (completion : list Z) (movie_rows : list MovieRow)
    (failed_ids : list Z) :
  Forall (fun mid => exists r, future_of w client mid = inr r) completion ->
  collect (map (future_of w client) completion) movie_rows failed_ids
  = inr (movie_rows ++ flat_map (rows_at w client) completion,
         failed_ids ++ flat_map (failed_at w client) completion).
Proof.
  intros H. revert movie_rows failed_ids.
  induction H as [|mid rest [r Hr] _ IH]; intros movie_rows failed_ids.
  - simpl. now rewrite !app_nil_r.
  - cbn [map collect flat_map]. unfold rows_at at 1, failed_at at 1.
    rewrite Hr. cbn [bind].
    destruct r as [[row|] m]; rewrite IH; cbn [app]; now rewrite <- !app_assoc.
Qed.

(** The loop of the collector, when a future raises. *)
Lemma collect_raises (completion : list Z) (movie_rows : list MovieRow)
    (failed_ids : list Z) :
  Exists (fun mid => exists e, future_of w client mid = inl e) completion ->
  exists e,
    collect (map (future_of w client) completion) movie_rows failed_ids = inl e.
Proof.
  intros H. revert movie_rows failed_ids.
  induction H as [mid rest [e He]|mid rest _ IH]; intros movie_rows failed_ids;
    cbn [map collect].
  - rewrite He. now exists e.
  - destruct (future_of w client mid) as [e|[[row|] m]]; cbn [bind];
      [now exists e | apply IH | apply IH].
Qed.

Lemma dispatch_returns (completion : list Z) :
  Forall (fun mid => exists r, future_of w client mid = inr r) completion ->
  dispatch w client completion
  = inr (flat_map (rows_at w client) completion,
         flat_map (failed_at w client) completion).
Proof. intros H. unfold dispatch. apply (collect_returns completion [] [] H). Qed.

Lemma all_return_or_one_raises (completion : list Z) :
  Forall (fun mid => exists r, future_of w client mid = inr r) completion
  \/ Exists (fun mid => exists e, future_of w client mid = inl e) completion.
Proof.
  induction completion as [|mid rest [IH|IH]].
  - left. constructor.
  - destruct (future_of w client mid) as [e|r] eqn:E.
    + right. left. now exists e.
    + left. constructor; [now exists r | exact IH].
  - right. now right.
Qed.


(** The identifiers of the two containers are the identifiers
    submitted. *)
Lemma containers_cover (completion : list Z) :
  Forall (fun mid => exists r, future_of w client mid = inr r) completion ->
  Permutation
    (map id (flat_map (rows_at w client) completion)
       ++ flat_map (failed_at w client) completion)
    completion.
Proof.
  induction 1 as [|mid rest [r Hr] _ IH]; [constructor|].
  cbn [flat_map]. unfold rows_at at 1, failed_at at 1. rewrite Hr.
  destruct r as [[row|] m].
  - destruct (future_of_row _ _ _ Hr) as (_ & Hid & _).
    cbn [app map]. rewrite Hid. now constructor.
  - destruct (future_of_none _ _ Hr) as (-> & _).
    cbn [app]. apply Permutation_sym, Permutation_cons_app, Permutation_sym, IH.
Qed.

Lemma rows_In (completion : list Z) (row : MovieRow) :
  In row (flat_map (rows_at w client) completion) <->
  In (id row) completion
  /\ future_of w client (id row) = inr (Some row, id row).
Proof.
  rewrite in_flat_map. split.
  - intros (mid & Hmid & Hrow). apply rows_at_In in Hrow.
    destruct (future_of_row _ _ _ Hrow) as (_ & Hid & _).
    rewrite Hid. auto.
  - intros [Hin Hf]. exists (id row). split; [exact Hin|]. now apply rows_at_In.
Qed.

Lemma failed_In (completion : list Z) (mid : Z) :
  In mid (flat_map (failed_at w client) completion) <->
  In mid completion /\ future_of w client mid = inr (None, mid).
Proof.
  rewrite in_flat_map. split.
  - intros (m & Hm & Hf). apply failed_at_In in Hf. destruct Hf as [-> Hf]. auto.
  - intros [Hin Hf]. exists mid. split; [exact Hin|]. now apply failed_at_In.
Qed.

End DispatchFacts.


(** ** The reader *)

Section ReaderFacts.
Context {RT : PyRuntime}.

Lemma existsb_eqb_In (x : Z) (l : list Z) :
  existsb (Z.eqb x) l = true <-> In x l.
Proof.
  rewrite existsb_exists. split.
  - intros (y & Hy & E). apply Z.eqb_eq in E. now subst.
  - intros H. exists x. split; [exact H | apply Z.eqb_refl].
Qed.

(** The loop keeps the identifiers positive and without repetition. *)
Lemma read_rows_ids (cells : list (option string)) :
  forall (row_num : Z) (movie_ids seen_ids : list Z) (skipped : list skipped_row),
    NoDup movie_ids ->
    (forall x, In x movie_ids <-> In x seen_ids) ->
    Forall (fun x => 0 < x) movie_ids ->
    NoDup (fst (read_rows cells row_num movie_ids seen_ids skipped))
    /\ Forall (fun x => 0 < x)
         (fst (read_rows cells row_num movie_ids seen_ids skipped)).
Proof.
  induction cells as [|raw_value rest IH];
    intros row_num movie_ids seen_ids skipped Hnd Hseen Hpos; [now split|].
  cbn [read_rows].
  destruct (String.eqb _ ""); [now apply IH|].
  destruct (int_of_str _) as [movie_id|]; [|now apply IH].
  destruct (Z.leb_spec movie_id 0) as [Hle|Hgt]; [now apply IH|].
  destruct (existsb (Z.eqb movie_id) seen_ids) eqn:E; [now apply IH|].
  assert (Hnew : ~ In movie_id movie_ids).
  { intros Hin. apply Hseen, existsb_eqb_In in Hin. congruence. }
  apply IH.
  - apply (Permutation_NoDup (Permutation_cons_append movie_ids movie_id)).
    now constructor.
  - intros x. rewrite in_app_iff. cbn [In]. rewrite (Hseen x). tauto.
  - apply Forall_app. split; [exact Hpos | now repeat constructor].
Qed.

(** What the reader does, by the file. *)
Lemma read_movie_ids_with_skips_cases (file : option csv_input) :
  match file with
  | None => read_movie_ids_with_skips file = inr ([], [])
  | Some f =>
      match fieldnames f with
      | None => read_movie_ids_with_skips file = inl TypeError
      | Some names =>
          read_movie_ids_with_skips file
          = inr (if has_id_column f then read_rows (id_cells f) 2 [] [] []
                 else ([], []))
      end
  end.
Proof.
  destruct file as [f|]; [|reflexivity].
  unfold read_movie_ids_with_skips, has_id_column, lacks_id_column.
  destruct (fieldnames f) as [names|]; [|reflexivity].
  cbn [bind ret]. now destruct (existsb (String.eqb "ID") names).
Qed.

Lemma read_movie_ids_NoDup (file : option csv_input) (movie_ids : list Z)
    (skipped : list skipped_row) :
  read_movie_ids_with_skips file = inr (movie_ids, skipped) ->
  NoDup movie_ids.
Proof.
  pose proof (read_movie_ids_with_skips_cases file) as H.
  destruct file as [f|]; [|rewrite H; intros [= <- <-]; constructor].
  destruct (fieldnames f) as [names|]; rewrite H; [|discriminate].
  destruct (has_id_column f); [|intros [= <- <-]; constructor].
  intros E.
  change movie_ids with (fst (movie_ids, skipped)).
  injection E as <-.
  apply read_rows_ids; [constructor | reflexivity | constructor].
Qed.
End ReaderFacts.

(** ** What the cells take *)

Section CellFacts.
Context {RT : PyRuntime}.

Lemma check_string_accepted (s : string) :
  cell_accepts s = true -> check_string s = ret (prefix max_cell_length s).
Proof.
  unfold cell_accepts, check_string. intros H.
  apply negb_true_iff in H. now rewrite H.
Qed.

Lemma check_string_refused (s : string) :
  cell_accepts s = false -> check_string s = raise IllegalCharacterError.
Proof.
  unfold cell_accepts, check_string. intros H.
  apply negb_false_iff in H. now rewrite H.
Qed.

Lemma check_values_row (movie : MovieRow) :
  row_accepted movie = true ->
  check_values (row_values movie) = ret (stored_values movie).
Proof.
  unfold row_accepted, row_values, stored_values. intros H.
  apply andb_true_iff in H. destruct H as [H1 H2].
  cbn [check_values check_value bind ret].
  rewrite (check_string_accepted _ H1). cbn [bind ret].
  destruct (vote_average movie); cbn [bind ret];
    rewrite (check_string_accepted _ H2); reflexivity.
Qed.

Lemma check_values_row_refused (movie : MovieRow) :
  row_accepted movie = false ->
  check_values (row_values movie) = raise IllegalCharacterError.
Proof.
  unfold row_accepted, row_values. intros H.
  cbn [check_values check_value bind ret].
  destruct (cell_accepts (title movie)) eqn:H1.
  - rewrite (check_string_accepted _ H1). cbn [bind ret]. cbn [andb] in H.
    destruct (vote_average movie); cbn [bind ret];
      rewrite (check_string_refused _ H); reflexivity.
  - rewrite (check_string_refused _ H1). reflexivity.
Qed.

Lemma check_values_headers :
  check_values (map StrValue headers) = ret (map StrValue headers).
Proof. reflexivity. Qed.





Lemma write_movies_raises (rows : list MovieRow) (sheet : Worksheet) :
  Exists (fun movie => row_accepted movie = false) rows ->
  write_movies rows sheet = inl IllegalCharacterError.
Proof.
  intros H. revert sheet.
  induction H as [movie rest Hm|movie rest _ IH]; intros sheet;
    cbn [write_movies]; unfold append_row.
  - now rewrite (check_values_row_refused movie Hm).
  - destruct (row_accepted movie) eqn:Hm.
    + rewrite (check_values_row movie Hm). cbn [bind ret]. apply IH.
    + now rewrite (check_values_row_refused movie Hm).
Qed.


Lemma movies_sheet_raises (rows : list MovieRow) :
  Exists (fun movie => row_accepted movie = false) rows ->
  movies_sheet rows = inl IllegalCharacterError.
Proof.
  intros H. unfold movies_sheet, append_row. rewrite check_values_headers.
  cbn [bind ret]. now apply write_movies_raises.
Qed.


End CellFacts.

(** ** [main] *)

Section MainFacts.
Context {RT : PyRuntime}.








End MainFacts.

Lemma Zleb_total (a b : Z) : (a <=? b) = true \/ (b <=? a) = true.
Proof. destruct (Z.leb_spec a b); [now left | right; apply Z.leb_le; lia]. Qed.

Lemma Zleb_trans (a b c : Z) :
  (a <=? b) = true -> (b <=? c) = true -> (a <=? c) = true.
Proof. rewrite !Z.leb_le. lia. Qed.

Lemma StronglySorted_weaken {A : Type} (R R' : A -> A -> Prop) (l : list A) :
  (forall a b, R a b -> R' a b) -> StronglySorted R l -> StronglySorted R' l.
Proof.
  intros HR. induction 1 as [|x l _ IH Hx]; constructor; [exact IH|].
  eapply Forall_impl; [|exact Hx]. intros y. apply HR.
Qed.



(** C10, amended. The identifiers that are submitted are those [main]
    reads from the input. When the futures complete in any order and none
    raises, each identifier submitted is once in exactly one of the two
    containers, as the [id] of one row or as one failed identifier; the
    containers hold nothing else and have no identifier in common; and every
    row is the one the task of its own identifier returned. *)
Theorem dispatcher_partitions {RT : PyRuntime}
    (file : option csv_input) (w : World) (client : TMDBClient)
    (completion movie_ids : list Z) (skipped_rows : list skipped_row) :
  read_movie_ids_with_skips file = inr (movie_ids, skipped_rows) ->
  Permutation completion movie_ids ->
  Forall (fun mid => exists r, future_of w client mid = inr r) movie_ids ->
  exists movie_rows failed_ids,
    dispatch w client completion = inr (movie_rows, failed_ids)
    /\ (forall mid, In mid movie_ids ->
          (count_occ Z.eq_dec (map id movie_rows) mid
           + count_occ Z.eq_dec failed_ids mid = 1)%nat)
    /\ Permutation (map id movie_rows ++ failed_ids) movie_ids
    /\ (forall mid, In mid (map id movie_rows) -> ~ In mid failed_ids)
    /\ (forall row, In row movie_rows ->
          future_of w client (id row) = inr (Some row, id row)).
Proof.
  intros Hread P Hret.
  assert (Hret' : Forall (fun mid => exists r, future_of w client mid = inr r)
                         completion).
  { rewrite Forall_forall in *. intros mid Hmid. apply Hret.
    now apply (Permutation_in _ P). }
  exists (flat_map (rows_at w client) completion),
         (flat_map (failed_at w client) completion).
  assert (Hcover : Permutation
                     (map id (flat_map (rows_at w client) completion)
                        ++ flat_map (failed_at w client) completion)
                     movie_ids).
  { eapply perm_trans; [apply containers_cover, Hret' | exact P]. }
  split; [apply dispatch_returns, Hret'|].
  split; [|split; [exact Hcover|split]].
  - intros mid Hmid. rewrite <- count_occ_app.
    rewrite (proj1 (Permutation_count_occ Z.eq_dec _ _) Hcover mid).
    apply NoDup_count_occ'; [|exact Hmid].
    exact (read_movie_ids_NoDup file movie_ids skipped_rows Hread).
  - intros mid Hrow Hfailed. apply in_map_iff in Hrow.
    destruct Hrow as (row & <- & Hrow).
    apply rows_In in Hrow. apply failed_In in Hfailed.
    destruct Hrow as [_ Hrow], Hfailed as [_ Hfailed]. congruence.
  - intros row Hrow. now apply rows_In in Hrow.
Qed.

(** C10, as stated, fails on a run in which a task raises. The input has
    the identifiers 550 and 7, and the document of 7 has a score that no
    [float] holds: its task raises, [future.result()] raises in the loop of
    the collector, and the identifiers are in no container, the one whose
    task returned a row included. *)
Lemma raising_task_leaves_no_container :
  read_movie_ids_with_skips film_and_oversized = inr ([550; 7], [])
  /\ (exists row,
        future_of oversized_at_7 (new_client "key") 550 = inr (Some row, 550))
  /\ dispatch oversized_at_7 (new_client "key") [550; 7] = inl OverflowError
  /\ snd (main (Some "key") "/work" film_and_oversized oversized_at_7
               [550; 7] 0 2)
     = Raised OverflowError.
Proof.
  split; [reflexivity|]. split; [eexists; reflexivity|]. split; reflexivity.
Qed.

(** C1, amended. The task of an identifier whose fetch returns a document
    that is not empty and that the transform goes through (an object with a
    field or more, whose score is not an integer that [float] overflows on
    and whose genres, when it has some, can be looped over) returns the row
    the transform makes of the document, with the identifier; the task of
    an identifier whose fetch returns no record, or an empty (falsy)
    document, returns no row. And in any run whose collector returns, an
    identifier whose fetch returned a truthy document has a row among the
    rows, the one the transform makes, and is not among the failed ones,
    while one whose fetch returned nothing truthy is among the failed ones
    and has no row. *)
Theorem record_routes_to_row {RT : PyRuntime}
    (w : World) (client : TMDBClient) (movie_id : Z) (api_data : json) :
  snd (fetch_movie_details w client movie_id) = inr api_data ->
  (forall entries,
      api_data = JDict entries -> entries <> [] ->
      score_converts (dict_get entries "vote_average" JNull) = true ->
      iterable (dict_get entries "genres" (JList [])) = true ->
      exists row,
        make_movie_row movie_id api_data = inr row
        /\ id row = movie_id
        /\ future_of w client movie_id = inr (Some row, movie_id))
  /\ (truthy api_data = false ->
      future_of w client movie_id = inr (None, movie_id))
  /\ forall completion movie_rows failed_ids,
      In movie_id completion ->
      dispatch w client completion = inr (movie_rows, failed_ids) ->
      (truthy api_data = true ->
         (exists row,
             In row movie_rows /\ id row = movie_id
             /\ make_movie_row movie_id api_data = inr row)
         /\ ~ In movie_id failed_ids)
      /\ (truthy api_data = false ->
            In movie_id failed_ids /\ ~ In movie_id (map id movie_rows)).
Proof.
  intros Hfetch. split; [|split].
  - intros entries -> Hne Hscore Hiter.
    destruct (score_converts_returns _ Hscore) as (score & Hv & _).
    assert (Hit : exists items,
               py_iter (dict_get entries "genres" (JList [])) = inr items).
    { destruct (dict_get entries "genres" (JList [])); try discriminate Hiter;
        now eexists. }
    destruct Hit as [items Hit].
    pose proof (make_movie_row_document movie_id entries items score Hne Hit Hv)
      as Hrow.
    eexists. split; [exact Hrow|]. split; [reflexivity|].
    rewrite (future_of_truthy w client movie_id (JDict entries) Hfetch).
    + now rewrite Hrow.
    + destruct entries; [congruence | reflexivity].
  - intros Ht. exact (future_of_falsy w client movie_id api_data Hfetch Ht).
  - intros completion movie_rows failed_ids Hin Hd.
    assert (Hret : Forall (fun mid => exists x, future_of w client mid = inr x)
                          completion).
    { destruct (all_return_or_one_raises w client completion) as [Hr|Hr];
        [exact Hr|].
      destruct (collect_raises w client completion [] [] Hr) as [e He].
      unfold dispatch in Hd. unfold future_of in He. congruence. }
    rewrite (dispatch_returns w client completion Hret) in Hd.
    injection Hd as <- <-.
    rewrite Forall_forall in Hret. destruct (Hret movie_id Hin) as [x Hx].
    split; intros Ht.
    + rewrite (future_of_truthy w client movie_id api_data Hfetch Ht) in Hx.
      destruct (make_movie_row movie_id api_data) as [e|row] eqn:Hrow;
        [discriminate Hx|].
      pose proof (make_movie_row_id _ _ _ Hrow) as Hid.
      assert (Hf : future_of w client movie_id = inr (Some row, movie_id)).
      { rewrite (future_of_truthy w client movie_id api_data Hfetch Ht).
        now rewrite Hrow. }
      split.
      * exists row. repeat split; [|exact Hid].
        apply rows_In. rewrite Hid. auto.
      * intros Hf'. apply failed_In in Hf'. destruct Hf' as [_ Hf'].
        congruence.
    + pose proof (future_of_falsy w client movie_id api_data Hfetch Ht) as Hf.
      split.
      * apply failed_In. auto.
      * intros Hin'. apply in_map_iff in Hin'.
        destruct Hin' as (row & Hid & Hin').
        apply rows_In in Hin'. destruct Hin' as [_ Hin'].
        rewrite Hid, Hf in Hin'. discriminate.
Qed.

Lemma record_routes_to_row_witness :
  (exists row,
      make_movie_row 550 fight_club = inr row
      /\ id row = 550
      /\ future_of two_films (new_client "fake_key") 550 = inr (Some row, 550))
  /\ future_of two_films (new_client "fake_key") 9999 = inr (None, 9999)
  /\ exists movie_rows failed_ids,
      dispatch two_films (new_client "fake_key") [9999; 550]
      = inr (movie_rows, failed_ids)
      /\ (exists row, In row movie_rows /\ id row = 550)
      /\ ~ In 550 failed_ids
      /\ In 9999 failed_ids
      /\ ~ In 9999 (map id movie_rows).
Proof.
  destruct (record_routes_to_row two_films (new_client "fake_key") 550
              fight_club eq_refl) as (Ha & _ & Hc).
  destruct (record_routes_to_row two_films (new_client "fake_key") 9999
              JNull eq_refl) as (_ & Hb & Hd).
  split; [|split].
  - apply (Ha fight_club_entries); [reflexivity | discriminate | reflexivity..].
  - exact (Hb eq_refl).
  - destruct (dispatch two_films (new_client "fake_key") [9999; 550])
      as [e|[movie_rows failed_ids]] eqn:E; [discriminate E|].
    exists movie_rows, failed_ids. split; [reflexivity|].
    destruct (Hc [9999; 550] movie_rows failed_ids) as [H1 _];
      [right; now left | exact E|].
    destruct (Hd [9999; 550] movie_rows failed_ids) as [_ H2];
      [now left | exact E|].
    destruct (H1 eq_refl) as [(row & Hin & Hid & _) Hnot].
    destruct (H2 eq_refl) as [Hf Hno].
    split; [now exists row|]. split; [exact Hnot|]. split; [exact Hf | exact Hno].
Defined.

(** C1, as stated, fails on the empty document: the fetch returns a record,
    [{}], which is not [None], and the identifier goes to the failed ones
    without a row. It fails on a malformed document too: of a record that
    is a list the transform makes no row, it raises, and the run ends with
    its error. *)
Lemma empty_document_routed_to_failures :
  let client := new_client "fake_key" in
  snd (fetch_movie_details (always (Response 200 (JDict []))) client 550)
  = inr (JDict [])
  /\ JDict [] <> JNull
  /\ dispatch (always (Response 200 (JDict []))) client [550] = inr ([], [550])
  /\ snd (fetch_movie_details (always (Response 200 (JList [JInt 1]))) client 550)
     = inr (JList [JInt 1])
  /\ dispatch (always (Response 200 (JList [JInt 1]))) client [550]
     = inl AttributeError.
Proof. repeat split. discriminate. Qed.

Section RunFacts.
Context {RT : PyRuntime}.




End RunFacts.





Lemma dispatcher_partitions_witness :
  exists movie_rows failed_ids,
    dispatch two_films (new_client "key") [634649; 9999; 550]
    = inr (movie_rows, failed_ids)
    /\ map id movie_rows = [634649; 550] /\ failed_ids = [9999].
Proof.
  destruct (dispatcher_partitions three_ids two_films (new_client "key")
              [634649; 9999; 550] [550; 9999; 634649] [])
    as (movie_rows & failed_ids & Hd & _).
  - reflexivity.
  - apply (perm_trans (l' := [9999; 634649; 550])).
    + apply perm_swap.
    + apply Permutation_sym, (Permutation_cons_append [9999; 634649] 550).
  - repeat constructor; eexists; reflexivity.
  - exists movie_rows, failed_ids. split; [exact Hd|].
    injection Hd as <- <-. split; reflexivity.
Defined.

(** * The failure report *)

(** C9. When there is anything to report, the lines [write_failed_ids]
    writes are the header, then one line per failed identifier, in
    ascending order of the identifiers, with the reason "fetch-failed" and an
    empty row number, then one line per skipped input row, in the order of
    the skip list, with its raw value, its reason and its row number. *)
Theorem failure_report_order {RT : PyRuntime}
    (failed_ids : list Z) (skipped_rows : list skipped_row) (output_path : string) :
  failed_ids <> [] \/ skipped_rows <> [] ->
  exists sorted_ids,
    Permutation sorted_ids failed_ids
    /\ StronglySorted Z.le sorted_ids
    /\ reported_failures (write_failed_ids failed_ids skipped_rows output_path)
       = Some (["ID"; "Reason"; "RowNumber"]
                 :: map (fun mid => [str_of_int mid; "fetch-failed"; ""]) sorted_ids
                 ++ map (fun entry =>
                           [fst (fst entry); snd entry;
                            str_of_int (snd (fst entry))]) skipped_rows).
Proof.
  intros Hne. exists (sort_by (fun mid => mid) Z.leb failed_ids).
  split; [apply sort_by_perm|]. split.
  - apply (StronglySorted_weaken (le_by (fun mid : Z => mid) Z.leb)).
    + intros a b. unfold le_by. apply Z.leb_le.
    + apply sort_by_sorted; [exact Zleb_total | exact Zleb_trans].
  - assert (E : write_failed_ids failed_ids skipped_rows output_path
                = [WriteCsv (failed_lines failed_ids skipped_rows) output_path;
                   Log INFO (WroteFailedIds output_path)]).
    { destruct failed_ids, skipped_rows; try reflexivity.
      destruct Hne as [H|H]; now destruct H. }
    rewrite E. cbn [reported_failures]. unfold failed_lines, failed_header.
    do 3 f_equal. apply map_ext. now intros [[raw_value row_number] reason].
Qed.

Lemma failure_report_order_witness :
  exists sorted_ids,
    Permutation sorted_ids [9999999; 804143]
    /\ StronglySorted Z.le sorted_ids
    /\ reported_failures
         (write_failed_ids [9999999; 804143] [("399S79", 117, "non-numeric")]
                           "dead_letter_queue.csv")
       = Some (["ID"; "Reason"; "RowNumber"]
                 :: map (fun mid => [str_of_int mid; "fetch-failed"; ""]) sorted_ids
                 ++ map (fun entry : skipped_row =>
                           [fst (fst entry); snd entry;
                            str_of_int (snd (fst entry))])
                      [("399S79", 117, "non-numeric")]).
Proof.
  apply (failure_report_order (RT := test_runtime) [9999999; 804143]
           [("399S79", 117, "non-numeric")] "dead_letter_queue.csv").
  left. discriminate.
Defined.

(** ** The end-to-end scenarios *)

Example scenario_1 :
  let run := main (Some "key") "/work" three_ids two_films [634649; 9999; 550] 0 2 in
  snd run = Returned
  /\ option_map (map id) (reported_rows (fst run)) = Some [550; 634649]
  /\ reported_failures (fst run)
     = Some [["ID"; "Reason"; "RowNumber"]; ["9999"; "fetch-failed"; ""]].
Proof. repeat split. Qed.

Example scenario_2 :
  make_movie_row 1
    (JDict [("genres", JList [JDict [("name", JStr "Adventure")];
                              JDict [("name", JStr "Action")]])])
  = inr {| id := 1; title := ""; vote_average := None;
           genres := ["Action"; "Adventure"]; is_action := true |}.
Proof. reflexivity. Qed.

Example scenario_3 : throughput 3 (elapsed_between 5 5) = 0%Q.
Proof. reflexivity. Qed.

(** * More of the fetcher *)


Lemma range_last (n : Z) : 0 <= n -> range (n + 1) = range n ++ [n].
Proof.
  intros Hn. unfold range.
  replace (Z.to_nat (n + 1)) with (Z.to_nat n + 1)%nat by lia.
  rewrite seq_app, map_app. cbn [seq map Nat.add].
  now rewrite Z2Nat.id by lia.
Qed.

Section FetchMore.
Context {RT : PyRuntime}.
Variable w : World.
Variable self : TMDBClient.
Variable movie_id : Z.

Abbreviation loop' := (attempts w self movie_id).
Abbreviation req' := (request self movie_id).
Abbreviation wait' := (total_wait_time w self movie_id).

(** The loop makes at most one request per iteration and sleeps at most once
    per request. *)
Lemma attempts_bounds (todo : list Z) :
  (call_count (fst (loop' todo)) <= List.length todo)%nat
  /\ (List.length (sleeps (fst (loop' todo))) <= call_count (fst (loop' todo)))%nat.
Proof.
  induction todo as [|k rest [IH1 IH2]]; [split; cbn; lia|].
  destruct (attempts_shape w self movie_id k rest)
    as [(H1 & H2 & _)|(_ & lg & E)].
  - rewrite H1, H2. cbn [List.length]. split; [lia | apply Nat.le_0_l].
  - rewrite E. cbn [fst]. rewrite call_count_retried.
    cbn [sleeps List.length]. split; [lia | now apply le_n_S].
Qed.

(** Every request of the loop is the same request. *)
Lemma attempts_requests (todo : list Z) :
  filter is_request (fst (loop' todo))
  = repeat req' (call_count (fst (loop' todo))).
Proof.
  induction todo as [|k rest IH]; [reflexivity|].
  destruct (attempts_shape w self movie_id k rest)
    as [(H1 & _ & tr & E)|(_ & lg & E)].
  - rewrite H1. rewrite E in *. unfold call_count in H1. cbn in *.
    destruct (filter is_request tr); [reflexivity | discriminate].
  - rewrite E. cbn [fst]. rewrite call_count_retried.
    unfold request. cbn [filter is_request repeat]. f_equal. exact IH.
Qed.

(** What the loop returns, when it is not [None], is the body of a response
    with status 200. *)
Lemma attempts_result (todo : list Z) (v : json) :
  snd (loop' todo) = inr v -> v <> JNull ->
  exists k, In k todo /\ http_get w movie_id k = Response 200 v.
Proof.
  induction todo as [|k rest IH]; [cbn; unfold ret; congruence|].
  cbn [attempts].
  destruct (http_get w movie_id k) as [s body|] eqn:E.
  - destruct (Z.eqb_spec s 200) as [->|_].
    + cbn. unfold ret. intros [= <-] _. exists k. split; [now left | exact E].
    + destruct (s =? 404); [cbn; unfold ret; congruence|].
      destruct (is_transient s); [|cbn; unfold ret; congruence].
      destruct (wait_then_cases w self movie_id k
                  [req'; Log WARNING (RetryingStatus s movie_id (k + 1)
                                        (max_retry_attempts self + 1))]
                  (loop' rest)) as [[_ ->]|(_ & e & -> & _)];
        cbn [snd]; [|discriminate].
      intros Hr Hv.
      destruct (IH Hr Hv) as (k' & Hk' & Hget). exists k'.
      split; [now right | exact Hget].
  - destruct (k =? max_retry_attempts self); [cbn; unfold ret; congruence|].
    destruct (wait_then_cases w self movie_id k
                [req'; Log ERROR (NetworkError movie_id)]
                (loop' rest)) as [[_ ->]|(_ & e & -> & _)];
      cbn [snd]; [|discriminate].
    intros Hr Hv.
    destruct (IH Hr Hv) as (k' & Hk' & Hget). exists k'.
    split; [now right | exact Hget].
Qed.


(** After requests that were retried, a network error on the last attempt
    ends the call without a sleep. *)
Lemma attempts_network_error_last (pre post : list Z) :
  Forall (retried w self movie_id) pre ->
  http_get w movie_id (max_retry_attempts self) = RequestException ->
  snd (loop' (pre ++ max_retry_attempts self :: post)) = inr JNull
  /\ call_count (fst (loop' (pre ++ max_retry_attempts self :: post)))
     = S (List.length pre)
  /\ sleeps (fst (loop' (pre ++ max_retry_attempts self :: post)))
     = map wait' pre.
Proof.
  intros Hpre Hk.
  destruct (attempts_after_retried w self movie_id pre
              (max_retry_attempts self :: post) Hpre) as (H1 & H2 & H3).
  rewrite H1, H2, H3. cbn [attempts]. rewrite Hk, Z.eqb_refl.
  cbn [all_retries_failed fst snd]. repeat split.
  - unfold call_count. simpl. lia.
  - simpl. now rewrite app_nil_r.
Qed.

End FetchMore.

(** X1. Whatever the network does, the fetcher makes at most
    [max_retry_attempts + 1] requests, none when that number is not
    positive, and sleeps at most once per request. *)
Theorem fetch_request_bound {RT : PyRuntime}
    (w : World) (self : TMDBClient) (movie_id : Z) :
  Z.of_nat (call_count (fst (fetch_movie_details w self movie_id)))
  <= Z.max 0 (max_retry_attempts self + 1)
  /\ (List.length (sleeps (fst (fetch_movie_details w self movie_id)))
      <= call_count (fst (fetch_movie_details w self movie_id)))%nat.
Proof.
  unfold fetch_movie_details.
  destruct (attempts_bounds w self movie_id (range (max_retry_attempts self + 1)))
    as [H1 H2].
  rewrite range_length in H1. split; [lia | exact H2].
Qed.



(** X3. When every request fails with a network error and the backoffs
    after all of them but the last are slept, the fetcher makes [N + 1]
    requests, sleeps after each of them but the last, and returns
    [None]. *)
Theorem fetch_network_errors_exhaust {RT : PyRuntime}
    (w : World) (self : TMDBClient) (movie_id : Z) :
  0 <= max_retry_attempts self ->
  (forall k, 0 <= k <= max_retry_attempts self ->
     http_get w movie_id k = RequestException) ->
  (forall k, 0 <= k < max_retry_attempts self ->
     backoff_returns w self movie_id k = true) ->
  snd (fetch_movie_details w self movie_id) = inr JNull
  /\ Z.of_nat (call_count (fst (fetch_movie_details w self movie_id)))
     = max_retry_attempts self + 1
  /\ sleeps (fst (fetch_movie_details w self movie_id))
     = map (total_wait_time w self movie_id) (range (max_retry_attempts self)).
Proof.
  intros HN Hall Hwait. unfold fetch_movie_details.
  rewrite (range_last _ HN).
  destruct (attempts_network_error_last w self movie_id
              (range (max_retry_attempts self)) []) as (H1 & H2 & H3).
  - apply Forall_forall. intros k Hk. apply range_In in Hk.
    unfold retried. split; [now apply Hwait|].
    rewrite (Hall k) by lia. lia.
  - apply Hall. lia.
  - rewrite H2, range_length. repeat split; [exact H1 | lia | exact H3].
Qed.

Lemma fetch_network_errors_exhaust_witness :
  let w := always RequestException in
  let self := with_retries 2 (new_client "fake_key") in
  snd (fetch_movie_details w self 550) = inr JNull
  /\ Z.of_nat (call_count (fst (fetch_movie_details w self 550))) = 2 + 1
  /\ sleeps (fst (fetch_movie_details w self 550))
     = map (total_wait_time w self 550) (range 2).
Proof.
  apply (fetch_network_errors_exhaust (always RequestException)
           (with_retries 2 (new_client "fake_key")) 550).
  - simpl. lia.
  - intros k _. reflexivity.
  - intros k Hk. simpl in Hk. assert (Hk' : k = 0 \/ k = 1) by lia.
    destruct Hk' as [->| ->]; reflexivity.
Defined.

(** X4. When every request is answered with a transient status and every
    backoff is slept, the fetcher sleeps after each of its [N + 1]
    requests, the last one included: it sleeps once more than it
    retries. *)
Theorem fetch_transient_sleeps {RT : PyRuntime}
    (w : World) (self : TMDBClient) (movie_id : Z) :
  0 <= max_retry_attempts self ->
  (forall k, 0 <= k <= max_retry_attempts self ->
     exists s body,
       http_get w movie_id k = Response s body /\ is_transient s = true) ->
  (forall k, 0 <= k <= max_retry_attempts self ->
     backoff_returns w self movie_id k = true) ->
  sleeps (fst (fetch_movie_details w self movie_id))
  = map (total_wait_time w self movie_id) (range (max_retry_attempts self + 1))
  /\ List.length (sleeps (fst (fetch_movie_details w self movie_id)))
     = call_count (fst (fetch_movie_details w self movie_id))
  /\ List.length (retry_delays (fst (fetch_movie_details w self movie_id)))
     = Z.to_nat (max_retry_attempts self).
Proof.
  intros HN Hall Hwait. unfold fetch_movie_details.
  destruct (attempts_all_retried w self movie_id
              (range (max_retry_attempts self + 1))) as (_ & H2 & H3).
  - apply Forall_forall. intros k Hk. apply range_In in Hk.
    unfold retried. split; [apply Hwait; lia|].
    destruct (Hall k ltac:(lia)) as (s & body & -> & Hs).
    exact Hs.
  - split; [exact H3|]. split; [now rewrite H3, H2, length_map|].
    destruct (range_first (max_retry_attempts self + 1)) as [rest E]; [lia|].
    rewrite E in *. rewrite retry_delays_count in H2.
    assert (Hlen : List.length (0 :: rest) = Z.to_nat (max_retry_attempts self + 1))
      by (rewrite <- E; apply range_length).
    lia.
Qed.

Lemma fetch_transient_sleeps_witness :
  let w := always (Response 429 JNull) in
  let self := with_retries 1 (new_client "fake_key") in
  sleeps (fst (fetch_movie_details w self 550))
  = map (total_wait_time w self 550) (range (1 + 1))
  /\ List.length (sleeps (fst (fetch_movie_details w self 550)))
     = call_count (fst (fetch_movie_details w self 550))
  /\ List.length (retry_delays (fst (fetch_movie_details w self 550)))
     = Z.to_nat 1.
Proof.
  apply (fetch_transient_sleeps (always (Response 429 JNull))
           (with_retries 1 (new_client "fake_key")) 550).
  - simpl. lia.
  - intros k _. exists 429, JNull. split; reflexivity.
  - intros k Hk. simpl in Hk. assert (Hk' : k = 0 \/ k = 1) by lia.
    destruct Hk' as [->| ->]; reflexivity.
Defined.

(** X5. The fetcher returns a document only from a response with status
    200: a result that is not [None] is the body of the answer to one of
    the requests 0 to [N], and that answer has status 200. *)
Theorem fetch_result_from_200 {RT : PyRuntime}
    (w : World) (self : TMDBClient) (movie_id : Z) (api_data : json) :
  snd (fetch_movie_details w self movie_id) = inr api_data ->
  api_data <> JNull ->
  exists k,
    0 <= k <= max_retry_attempts self
    /\ http_get w movie_id k = Response 200 api_data.
Proof.
  intros Hr Hv. unfold fetch_movie_details in *.
  destruct (attempts_result w self movie_id _ _ Hr Hv) as (k & Hk & Hget).
  apply range_In in Hk. exists k. split; [lia | exact Hget].
Qed.

Lemma fetch_result_from_200_witness :
  exists k,
    0 <= k <= 3
    /\ http_get two_films 550 k = Response 200 fight_club.
Proof.
  apply (fetch_result_from_200 two_films (new_client "key") 550 fight_club).
  - reflexivity.
  - discriminate.
Defined.





(** X6. All the requests of a call are the same request: the URL of the
    film under the base URL, the credential and the language of the client,
    and its timeout. *)
Theorem fetch_requests_same {RT : PyRuntime}
    (w : World) (self : TMDBClient) (movie_id : Z) :
  filter is_request (fst (fetch_movie_details w self movie_id))
  = repeat (HttpGet ("https://api.themoviedb.org/3/movie/" ++ str_of_int movie_id)
                    (api_key self) (language self) (request_timeout self))
           (call_count (fst (fetch_movie_details w self movie_id))).
Proof. apply attempts_requests. Qed.

(** * More of the transform *)

Lemma lstrip_no_leading_space (s : string) : starts_with_space (lstrip s) = false.
Proof.
  induction s as [|c s IH]; [reflexivity|]. cbn [lstrip].
  destruct (is_space c) eqn:E; [exact IH | exact E].
Qed.

Lemma rstrip_no_trailing_space (s : string) : ends_with_space (rstrip s) = false.
Proof.
  induction s as [|c s IH]; [reflexivity|]. cbn [rstrip].
  destruct (rstrip s) as [|c' r].
  - destruct (is_space c) eqn:E; [reflexivity | exact E].
  - exact IH.
Qed.

Lemma rstrip_keeps_head (s : string) :
  starts_with_space s = false -> starts_with_space (rstrip s) = false.
Proof.
  destruct s as [|c s]; [reflexivity|]. cbn [rstrip starts_with_space].
  intros E. destruct (rstrip s); [now rewrite E | exact E].
Qed.

Lemma strip_trimmed (s : string) :
  starts_with_space (strip s) = false /\ ends_with_space (strip s) = false.
Proof.
  unfold strip. split.
  - apply rstrip_keeps_head, lstrip_no_leading_space.
  - apply rstrip_no_trailing_space.
Qed.

Section TransformMore.
Context {RT : PyRuntime}.

Lemma genre_name_of_spec (g : json) :
  genre_name_of g = if well_formed_genre g then Some (genre_tag g) else None.
Proof. destruct g; reflexivity. Qed.

(** The names collected are the tags of the entries that are kept, in the
    order of the entries. *)
Lemma genre_names_of_filter (items : list json) :
  genre_names_of items = map genre_tag (filter well_formed_genre items).
Proof.
  induction items as [|g items IH]; [reflexivity|].
  cbn [genre_names_of filter]. rewrite genre_name_of_spec.
  destruct (well_formed_genre g); cbn [map]; now rewrite IH.
Qed.

Lemma vote_num_of_converts (v : json) (score : option pyfloat) :
  vote_num_of v = inr score -> score_converts v = true.
Proof.
  destruct v as [| b | n | x | s | items | entries]; cbn; try reflexivity.
  - destruct (float_of_int (if b then 1 else 0)); cbn;
      [reflexivity | discriminate].
  - destruct (float_of_int n); cbn; [reflexivity | discriminate].
Qed.

Lemma py_iter_iterable (v : json) :
  (exists items, py_iter v = inr items) <-> iterable v = true.
Proof.
  destruct v; cbn; split; intros H; try discriminate; try (now eexists);
    destruct H as [items H]; discriminate.
Qed.

Lemma py_iter_raises (v : json) (e : exn) :
  py_iter v = inl e -> e = TypeError /\ iterable v = false.
Proof. destruct v; cbn; intros [= <-] || discriminate; now split. Qed.

(** What the transform does, case by case. *)
Lemma make_movie_row_cases (movie_id : Z) (api_data : json) :
  (truthy api_data = false
   /\ make_movie_row movie_id api_data = inr (default_row movie_id))
  \/ (truthy api_data = true
      /\ (forall entries, api_data <> JDict entries)
      /\ make_movie_row movie_id api_data = inl AttributeError)
  \/ (exists entries,
        api_data = JDict entries /\ entries <> []
        /\ make_movie_row movie_id api_data
           = (vote_num <- vote_num_of (dict_get entries "vote_average" JNull) ;;
              items <- py_iter (dict_get entries "genres" (JList [])) ;;
              ret {| id := movie_id;
                     title := py_str (dict_get entries "title" (JStr ""));
                     vote_average := vote_num;
                     genres := sort_by (fun s => s) String.leb
                                       (genre_names_of items);
                     is_action :=
                       contains "Action"
                         (sort_by (fun s => s) String.leb
                                  (genre_names_of items)) |})).
Proof.
  unfold make_movie_row.
  destruct (truthy api_data) eqn:Ht; [|now left].
  right. cbn [negb].
  destruct api_data as [| b | n | x | s | items | entries];
    try discriminate Ht;
    try (left; split; [reflexivity|];
         split; [intros entries; discriminate | reflexivity]).
  right. exists entries. split; [reflexivity|]. split.
  - intros ->. discriminate.
  - reflexivity.
Qed.
End TransformMore.

(** X7. A row the transform returns carries the identifier it was called
    with, whatever the [id] of the document is, and its genres have no
    white space at either end. *)
Theorem make_movie_row_id_and_trimmed_genres {RT : PyRuntime}
    (movie_id : Z) (api_data : json) (row : MovieRow) :
  make_movie_row movie_id api_data = inr row ->
  id row = movie_id
  /\ Forall (fun tag => starts_with_space tag = false
                        /\ ends_with_space tag = false) (genres row).
Proof.
  intros H. split; [exact (make_movie_row_id movie_id api_data row H)|].
  destruct (make_movie_row_cases movie_id api_data)
    as [[_ E]|[(_ & _ & E)|(entries & -> & _ & E)]]; rewrite E in H.
  - injection H as <-. constructor.
  - discriminate.
  - unfold bind in H.
    destruct (vote_num_of _) as [e|score]; [discriminate|].
    destruct (py_iter _) as [e|items]; [discriminate|].
    injection H as <-. cbn [genres].
    apply Forall_forall. intros tag Htag.
    apply (Permutation_in _ (sort_by_perm _ _ _)) in Htag.
    rewrite genre_names_of_filter in Htag. apply in_map_iff in Htag.
    destruct Htag as (g & <- & _).
    destruct g; try (now split). apply strip_trimmed.
Qed.

Lemma make_movie_row_id_and_trimmed_genres_witness :
  exists row,
    make_movie_row 949 untidy = inr row
    /\ id row = 949
    /\ Forall (fun tag => starts_with_space tag = false
                          /\ ends_with_space tag = false) (genres row).
Proof.
  destruct (make_movie_row 949 untidy) as [e|row] eqn:E; [discriminate E|].
  exists row. split; [reflexivity|].
  exact (make_movie_row_id_and_trimmed_genres 949 untidy row E).
Defined.

(** X8. The transform returns a row exactly on the documents that are falsy
    (no record, an empty object, but also an empty list, zero, the empty
    string, false) and on the objects whose score [float] does not overflow
    on and whose [genres] can be iterated. *)
Theorem make_movie_row_returns_iff {RT : PyRuntime}
    (movie_id : Z) (api_data : json) :
  (exists row, make_movie_row movie_id api_data = inr row)
  <-> (truthy api_data = false
       \/ exists entries,
            api_data = JDict entries
            /\ score_converts (dict_get entries "vote_average" JNull) = true
            /\ iterable (dict_get entries "genres" (JList [])) = true).
Proof.
  destruct (make_movie_row_cases movie_id api_data)
    as [[Ht E]|[(Ht & Hnd & E)|(entries & -> & Hne & E)]]; rewrite E.
  - split; [now left | now eexists].
  - split; [intros [row H]; discriminate|].
    intros [H|(entries & -> & _)]; [congruence | now destruct (Hnd entries)].
  - split.
    + intros [row H]. right. exists entries. split; [reflexivity|].
      unfold bind in H.
      destruct (vote_num_of _) as [e|score] eqn:Ev; [discriminate|].
      destruct (py_iter _) as [e|items] eqn:Ei; [discriminate|].
      split.
      * exact (vote_num_of_converts _ _ Ev).
      * apply py_iter_iterable. exists items. exact Ei.
    + intros [Ht|(entries' & [= <-] & Hs & Hi)].
      * destruct entries; [now destruct Hne | discriminate].
      * destruct (score_converts_returns _ Hs) as (score & -> & _).
        apply py_iter_iterable in Hi. destruct Hi as [items ->].
        cbn [bind]. now eexists.
Qed.

(** X9. When the transform raises, it raises [AttributeError] on a truthy
    value that is not an object, [OverflowError] on an object whose score
    is an integer too large for [float], and [TypeError] on an object whose
    score converts and whose [genres] cannot be iterated (null, a number, a
    boolean); it raises nothing else. *)
Theorem make_movie_row_raises {RT : PyRuntime}
    (movie_id : Z) (api_data : json) (e : exn) :
  make_movie_row movie_id api_data = inl e ->
  truthy api_data = true
  /\ ((e = AttributeError /\ forall entries, api_data <> JDict entries)
      \/ exists entries,
           api_data = JDict entries
           /\ ((e = OverflowError
                /\ score_converts (dict_get entries "vote_average" JNull) = false)
               \/ (e = TypeError
                   /\ score_converts (dict_get entries "vote_average" JNull) = true
                   /\ iterable (dict_get entries "genres" (JList [])) = false))).
Proof.
  destruct (make_movie_row_cases movie_id api_data)
    as [[Ht E]|[(Ht & Hnd & E)|(entries & -> & Hne & E)]]; rewrite E.
  - discriminate.
  - intros [= <-]. split; [exact Ht|]. left. now split.
  - intros H. split; [destruct entries; [now destruct Hne | reflexivity]|].
    right. exists entries. split; [reflexivity|]. unfold bind in H.
    destruct (vote_num_of _) as [e'|score] eqn:Ev.
    + injection H as <-. left. now apply vote_num_of_raises in Ev.
    + right. destruct (py_iter _) as [e'|items] eqn:Ei; [|discriminate].
      injection H as <-. apply py_iter_raises in Ei. destruct Ei as [-> Hi].
      repeat split; [exact (vote_num_of_converts _ _ Ev) | exact Hi].
Qed.

Lemma make_movie_row_raises_witness :
  truthy (JDict [("title", JStr "x"); ("genres", JNull)]) = true
  /\ ((TypeError = AttributeError
       /\ forall entries, JDict [("title", JStr "x"); ("genres", JNull)]
                          <> JDict entries)
      \/ exists entries,
           JDict [("title", JStr "x"); ("genres", JNull)] = JDict entries
           /\ ((TypeError = OverflowError
                /\ score_converts (dict_get entries "vote_average" JNull) = false)
               \/ (TypeError = TypeError
                   /\ score_converts (dict_get entries "vote_average" JNull) = true
                   /\ iterable (dict_get entries "genres" (JList [])) = false))).
Proof.
  apply (make_movie_row_raises (RT := test_runtime) 7
           (JDict [("title", JStr "x"); ("genres", JNull)]) TypeError).
  reflexivity.
Defined.

(** X10. On a document with a [genres] list the row has one genre per entry
    that is an object with a truthy [name], the trimmed string of that name,
    and none for the other entries: they are dropped, not reported. *)
Theorem genres_from_well_formed_entries {RT : PyRuntime}
    (movie_id : Z) (entries : list (string * json)) (items : list json)
    (row : MovieRow) :
  lookup "genres" entries = Some (JList items) ->
  make_movie_row movie_id (JDict entries) = inr row ->
  Permutation (genres row) (map genre_tag (filter well_formed_genre items))
  /\ List.length (genres row) = List.length (filter well_formed_genre items)
  /\ (List.length (genres row) <= List.length items)%nat.
Proof.
  intros Hg H.
  destruct (make_movie_row_cases movie_id (JDict entries))
    as [[Ht E]|[(_ & Hnd & _)|(entries' & [= <-] & _ & E)]].
  - destruct entries; [discriminate Hg | discriminate Ht].
  - now destruct (Hnd entries).
  - rewrite E in H. unfold bind in H.
    destruct (vote_num_of _) as [e|score]; [discriminate|].
    unfold dict_get at 1 in H. rewrite Hg in H. cbn [py_iter ret] in H.
    injection H as <-. cbn [genres]. rewrite genre_names_of_filter.
    assert (P : Permutation
                  (sort_by (fun s : string => s) String.leb
                           (map genre_tag (filter well_formed_genre items)))
                  (map genre_tag (filter well_formed_genre items)))
      by apply sort_by_perm.
    split; [exact P|].
    rewrite (Permutation_length P), length_map.
    split; [reflexivity | apply filter_length_le].
Qed.

Lemma genres_from_well_formed_entries_witness :
  exists row,
    make_movie_row 7 malformed_genres = inr row
    /\ List.length (genres row) = 1%nat.
Proof.
  destruct (make_movie_row 7 malformed_genres) as [e|row] eqn:E;
    [discriminate E|].
  exists row. split; [reflexivity|].
  destruct (genres_from_well_formed_entries (RT := test_runtime) 7
              [("title", JStr "Untitled");
               ("genres", JList [JInt 5; JDict [("id", JInt 1)]; JStr "Drama";
                                 JDict [("name", JStr "")]; genre 18 " Drama "])]
              [JInt 5; JDict [("id", JInt 1)]; JStr "Drama";
               JDict [("name", JStr "")]; genre 18 " Drama "]
              row eq_refl E) as (_ & H & _).
  exact H.
Defined.

(** * More of the dispatcher and of [main] *)

Section DispatchMore.
Context {RT : PyRuntime}.
Variable w : World.
Variable client : TMDBClient.

(** When the collector returns, no future had raised. *)
Lemma dispatch_returned (completion : list Z) (r : list MovieRow * list Z) :
  dispatch w client completion = inr r ->
  Forall (fun mid => exists x, future_of w client mid = inr x) completion.
Proof.
  intros H. destruct (all_return_or_one_raises w client completion) as [Hr|Hr];
    [exact Hr|].
  destruct (collect_raises w client completion [] [] Hr) as [e He].
  unfold dispatch in H. unfold future_of in He. congruence.
Qed.

(** The two containers, in the order of completion. *)
Lemma containers_in_completion_order (completion : list Z) :
  Forall (fun mid => exists x, future_of w client mid = inr x) completion ->
  map id (flat_map (rows_at w client) completion)
  = filter (record_fetched w client) completion
  /\ flat_map (failed_at w client) completion
     = filter (fun mid => negb (record_fetched w client mid)) completion.
Proof.
  induction 1 as [|mid rest [x Hx] _ [IH1 IH2]]; [split; reflexivity|].
  cbn [flat_map filter]. unfold rows_at at 1, failed_at at 1. rewrite Hx.
  destruct x as [[row|] m].
  - destruct (future_of_row w client _ _ _ Hx)
      as (_ & Hid & api_data & Ha & Ht & _).
    assert (Hrf : record_fetched w client mid = true)
      by (unfold record_fetched; now rewrite Ha).
    rewrite Hrf. cbn [negb app map].
    rewrite Hid. split; [now f_equal | exact IH2].
  - destruct (future_of_none w client _ _ Hx) as (-> & api_data & Ha & Ht).
    assert (Hrf : record_fetched w client mid = false)
      by (unfold record_fetched; now rewrite Ha).
    rewrite Hrf. cbn [negb app map].
    split; [exact IH1 | now f_equal].
Qed.

(** A task that returns had its fetch return. *)
Lemma fetches_returned (completion : list Z) :
  Forall (fun mid => exists x, future_of w client mid = inr x) completion ->
  Forall (fun mid => exists api_data,
            snd (fetch_movie_details w client mid) = inr api_data)
         completion.
Proof.
  apply Forall_impl. intros mid [x Hx].
  destruct (snd (fetch_movie_details w client mid)) as [e|api_data] eqn:E;
    [|now exists api_data].
  rewrite (future_of_fetch_raises w client mid e E) in Hx. discriminate.
Qed.

Lemma call_count_app (a b : list event) :
  call_count (a ++ b) = (call_count a + call_count b)%nat.
Proof. unfold call_count. now rewrite filter_app, length_app. Qed.

Lemma get_movie_data_call_count (movie_id : Z) :
  call_count (fst (get_movie_data w client movie_id))
  = call_count (fst (fetch_movie_details w client movie_id)).
Proof.
  unfold get_movie_data.
  destruct (fetch_movie_details w client movie_id) as [tr [e|api_data]];
    [reflexivity|].
  destruct (negb (truthy api_data)); cbn [fst]; [|reflexivity].
  rewrite call_count_app. cbn. lia.
Qed.
End DispatchMore.

Section MainMore.
Context {RT : PyRuntime}.




End MainMore.

(** X11. The dispatcher sorts neither container: the identifiers of the
    rows it collects are the identifiers whose fetch returned a truthy
    document, and the failed ones are the others, whose fetch returned
    nothing truthy, both in the order in which the tasks completed. *)
Theorem containers_keep_completion_order {RT : PyRuntime}
    (w : World) (client : TMDBClient) (completion : list Z)
    (movie_rows : list MovieRow) (failed_ids : list Z) :
  dispatch w client completion = inr (movie_rows, failed_ids) ->
  map id movie_rows = filter (record_fetched w client) completion
  /\ failed_ids
     = filter (fun mid => negb (record_fetched w client mid)) completion
  /\ Forall (fun mid => exists api_data,
               snd (fetch_movie_details w client mid) = inr api_data)
            completion.
Proof.
  intros H. pose proof (dispatch_returned w client completion _ H) as Hr.
  rewrite (dispatch_returns w client completion Hr) in H.
  injection H as <- <-.
  destruct (containers_in_completion_order w client completion Hr) as [H1 H2].
  split; [exact H1|]. split; [exact H2|]. now apply fetches_returned.
Qed.

Lemma containers_keep_completion_order_witness :
  exists movie_rows failed_ids,
    dispatch two_films (new_client "key") [634649; 9999; 550; 7]
    = inr (movie_rows, failed_ids)
    /\ map id movie_rows = [634649; 550] /\ failed_ids = [9999; 7].
Proof.
  destruct (dispatch two_films (new_client "key") [634649; 9999; 550; 7])
    as [e|[movie_rows failed_ids]] eqn:E; [discriminate E|].
  exists movie_rows, failed_ids. split; [reflexivity|].
  destruct (containers_keep_completion_order two_films (new_client "key")
              [634649; 9999; 550; 7] movie_rows failed_ids E) as (H1 & H2 & _).
  split; [exact H1 | exact H2].
Defined.









(** X16. With the client [main] makes, which keeps the default of 3
    retries, a task makes at most 4 requests for its identifier. *)
Theorem task_requests_at_most_four {RT : PyRuntime}
    (w : World) (key : string) (movie_id : Z) :
  (call_count (fst (get_movie_data w (new_client key) movie_id)) <= 4)%nat.
Proof.
  rewrite get_movie_data_call_count. unfold fetch_movie_details.
  destruct (attempts_bounds w (new_client key) movie_id
              (range (max_retry_attempts (new_client key) + 1))) as [H _].
  rewrite range_length in H. exact H.
Qed.

(** X17. The rate of the summary is never negative; it is 0 when the clock
    did not advance, and the number of identifiers divided by the time
    elapsed when it did. *)
Theorem throughput_guarded (total_attempted : nat) (t0 t1 : Q) :
  (0 <= throughput total_attempted (elapsed_between t0 t1))%Q
  /\ ((t1 <= t0)%Q -> throughput total_attempted (elapsed_between t0 t1) = 0%Q)
  /\ ((t0 < t1)%Q ->
      throughput total_attempted (elapsed_between t0 t1)
      = (inject_Z (Z.of_nat total_attempted) / (t1 - t0))%Q).
Proof.
  unfold throughput, elapsed_between.
  destruct (Qle_bool 0 (t1 - t0)) eqn:E1.
  - apply Qle_bool_iff in E1.
    destruct (Qle_bool (t1 - t0) 0) eqn:E2.
    + apply Qle_bool_iff in E2. split; [apply Qle_refl|].
      split; [reflexivity|]. intros H. exfalso. lra.
    + assert (H2 : ~ (t1 - t0 <= 0)%Q)
        by (intros H; apply Qle_bool_iff in H; congruence).
      split.
      * apply Qle_shift_div_l; [lra|].
        rewrite Qmult_0_l. change 0%Q with (inject_Z 0).
        rewrite <- Zle_Qle. lia.
      * split; [intros H; exfalso; lra | reflexivity].
  - assert (H1 : ~ (0 <= t1 - t0)%Q)
      by (intros H; apply Qle_bool_iff in H; congruence).
    change (Qle_bool 0 0) with true. cbn match.
    split; [apply Qle_refl|]. split; [reflexivity|]. intros H. exfalso. lra.
Qed.

Lemma throughput_guarded_witness :
  throughput 3 (elapsed_between 5 5) = 0%Q
  /\ throughput 3 (elapsed_between 0 2) = (inject_Z (Z.of_nat 3) / (2 - 0))%Q.
Proof.
  destruct (throughput_guarded 3 5 5) as (_ & H1 & _).
  destruct (throughput_guarded 3 0 2) as (_ & _ & H2).
  split; [apply H1; apply Qle_refl | apply H2; reflexivity].
Defined.

(** * More of the readers and of the writers *)

Lemma StronglySorted_snoc {A : Type} (R : A -> A -> Prop) (l : list A) (x : A) :
  StronglySorted R l -> Forall (fun y => R y x) l -> StronglySorted R (l ++ [x]).
Proof.
  induction 1 as [|y l Hl IH Hy]; intros Hx; cbn [app].
  - repeat constructor.
  - inversion Hx as [|? ? Hyx Hlx]; subst. constructor; [now apply IH|].
    apply Forall_app. split; [exact Hy | now repeat constructor].
Qed.

Section ReaderMore.
Context {RT : PyRuntime}.

(** Every row adds one entry to one of the two lists. *)
Lemma read_rows_count (cells : list (option string)) :
  forall (row_num : Z) (movie_ids seen_ids : list Z) (skipped : list skipped_row),
    (List.length (fst (read_rows cells row_num movie_ids seen_ids skipped))
     + List.length (snd (read_rows cells row_num movie_ids seen_ids skipped))
     = List.length cells + List.length movie_ids + List.length skipped)%nat.
Proof.
  induction cells as [|raw_value rest IH]; intros row_num movie_ids seen_ids skipped;
    [cbn; lia|].
  cbn [read_rows List.length].
  destruct (String.eqb _ ""); [rewrite IH, length_app; cbn; lia|].
  destruct (int_of_str _) as [movie_id|]; [|rewrite IH, length_app; cbn; lia].
  destruct (movie_id <=? 0); [rewrite IH, length_app; cbn; lia|].
  destruct (existsb (Z.eqb movie_id) seen_ids);
    rewrite IH, length_app; cbn; lia.
Qed.

Lemma skip_entry_ok_weaken (first bound bound' : Z) (entry : skipped_row) :
  bound <= bound' -> skip_entry_ok first bound entry ->
  skip_entry_ok first bound' entry.
Proof. unfold skip_entry_ok. intros Hb (H1 & H2 & H3). repeat split; auto; lia. Qed.

Lemma read_rows_skips (first : Z) (cells : list (option string)) :
  forall (row_num : Z) (movie_ids seen_ids : list Z) (skipped : list skipped_row),
    first <= row_num ->
    StronglySorted Z.lt (map (fun e : skipped_row => snd (fst e)) skipped) ->
    Forall (skip_entry_ok first row_num) skipped ->
    StronglySorted Z.lt
      (map (fun e : skipped_row => snd (fst e))
           (snd (read_rows cells row_num movie_ids seen_ids skipped)))
    /\ Forall (skip_entry_ok first (row_num + Z.of_nat (List.length cells)))
              (snd (read_rows cells row_num movie_ids seen_ids skipped)).
Proof.
  induction cells as [|raw_value rest IH];
    intros row_num movie_ids seen_ids skipped Hfirst Hsorted Hok.
  - cbn. split; [exact Hsorted|]. rewrite Z.add_0_r. exact Hok.
  - assert (Hstep : forall value reason,
               In reason skip_reasons ->
               (reason = "blank" -> value = "") ->
               StronglySorted Z.lt
                 (map (fun e : skipped_row => snd (fst e))
                      (skipped ++ [(value, row_num, reason)]))
               /\ Forall (skip_entry_ok first (row_num + 1))
                         (skipped ++ [(value, row_num, reason)])).
    { intros value reason Hr Hb. split.
      - rewrite map_app. apply StronglySorted_snoc; [exact Hsorted|].
        apply Forall_map. eapply Forall_impl; [|exact Hok].
        intros e (He & _). cbn. lia.
      - apply Forall_app. split.
        + eapply Forall_impl; [|exact Hok]. intros e.
          apply skip_entry_ok_weaken. lia.
        + constructor; [|constructor]. unfold skip_entry_ok. cbn.
          repeat split; [lia | lia | exact Hr | exact Hb]. }
    assert (Hweak : Forall (skip_entry_ok first (row_num + 1)) skipped).
    { eapply Forall_impl; [|exact Hok]. intros e.
      apply skip_entry_ok_weaken. lia. }
    replace (row_num + Z.of_nat (List.length (raw_value :: rest)))
      with (row_num + 1 + Z.of_nat (List.length rest))
      by (cbn [List.length]; lia).
    cbn [read_rows].
    destruct (String.eqb_spec
                (strip match raw_value with Some s => s | None => "" end) "")
      as [E|E].
    + rewrite E.
      destruct (Hstep "" "blank") as [H1 H2]; [cbn; auto | auto|].
      apply IH; [lia | exact H1 | exact H2].
    + destruct (int_of_str _) as [movie_id|].
      * destruct (movie_id <=? 0).
        -- destruct (Hstep (strip match raw_value with Some s => s | None => "" end)
                           "non-positive") as [H1 H2];
             [cbn; auto | discriminate|].
           apply IH; [lia | exact H1 | exact H2].
        -- destruct (existsb (Z.eqb movie_id) seen_ids).
           ++ destruct (Hstep (strip match raw_value with Some s => s | None => "" end)
                              "duplicate") as [H1 H2];
                [cbn; auto | discriminate|].
              apply IH; [lia | exact H1 | exact H2].
           ++ apply IH; [lia | exact Hsorted | exact Hweak].
      * destruct (Hstep (strip match raw_value with Some s => s | None => "" end)
                        "non-numeric") as [H1 H2];
          [cbn; auto | discriminate|].
        apply IH; [lia | exact H1 | exact H2].
Qed.

(** The two loops keep the same identifiers. *)
Lemma read_ids_read_rows (cells : list (option string)) :
  forall (row_num : Z) (movie_ids seen_ids : list Z) (skipped : list skipped_row),
    read_ids cells movie_ids seen_ids
    = fst (read_rows cells row_num movie_ids seen_ids skipped).
Proof.
  induction cells as [|raw_value rest IH]; intros row_num movie_ids seen_ids skipped;
    [reflexivity|].
  cbn [read_ids read_rows].
  destruct (String.eqb _ ""); [apply IH|].
  destruct (int_of_str _) as [movie_id|]; [|apply IH].
  destruct (movie_id <=? 0); [apply IH|].
  destruct (existsb (Z.eqb movie_id) seen_ids); apply IH.
Qed.

(** The identifiers kept are those already kept and those of the cells. *)
Lemma read_rows_members (cells : list (option string)) :
  forall (row_num : Z) (movie_ids seen_ids : list Z) (skipped : list skipped_row),
    (forall x, In x movie_ids <-> In x seen_ids) ->
    forall x,
      In x (fst (read_rows cells row_num movie_ids seen_ids skipped))
      <-> In x movie_ids
          \/ exists raw_value, In raw_value cells /\ valid_id raw_value = Some x.
Proof.
  induction cells as [|raw_value rest IH];
    intros row_num movie_ids seen_ids skipped Hseen x.
  - cbn. split; [auto | intros [H|(c & [] & _)]; exact H].
  - assert (Hskip : valid_id raw_value = None ->
              forall rn sk,
                In x (fst (read_rows rest rn movie_ids seen_ids sk))
                <-> In x movie_ids
                    \/ exists c, In c (raw_value :: rest) /\ valid_id c = Some x).
    { intros Hv rn sk. rewrite (IH rn movie_ids seen_ids sk Hseen x).
      split; intros [H|(c & Hc & Hx)]; auto.
      - right. exists c. split; [now right | exact Hx].
      - destruct Hc as [<-|Hc]; [congruence|]. right. now exists c. }
    cbn [read_rows]. unfold valid_id in Hskip.
    destruct (String.eqb
                (strip match raw_value with Some s => s | None => "" end) "")
      eqn:E.
    + apply Hskip. now destruct (int_of_str _).
    + destruct (int_of_str _) as [movie_id|] eqn:Ei; [|now apply Hskip].
      destruct (movie_id <=? 0) eqn:Ep; [now apply Hskip|].
      assert (Hvalid : valid_id raw_value = Some movie_id)
        by (unfold valid_id; now rewrite Ei, E, Ep).
      clear Hskip.
      destruct (existsb (Z.eqb movie_id) seen_ids) eqn:Es.
      * apply existsb_eqb_In, Hseen in Es.
        rewrite (IH _ movie_ids seen_ids _ Hseen x).
        split; intros [H|(c & Hc & Hx)]; auto.
        -- right. exists c. split; [now right | exact Hx].
        -- destruct Hc as [<-|Hc]; [left; congruence|]. right. now exists c.
      * rewrite (IH _ (movie_ids ++ [movie_id]) (movie_id :: seen_ids) _).
        -- rewrite in_app_iff. cbn [In].
           split; intros [H|(c & Hc & Hx)]; auto.
           ++ destruct H as [H|[<-|[]]]; [now left|].
              right. exists raw_value. split; [now left | exact Hvalid].
           ++ right. exists c. split; [now right | exact Hx].
           ++ destruct Hc as [<-|Hc].
              ** left. right. left. congruence.
              ** right. now exists c.
        -- intros y. rewrite in_app_iff. cbn [In]. rewrite (Hseen y). tauto.
Qed.
End ReaderMore.


(** X19. In a file whose header has the column [ID], every row that
    [csv.DictReader] yields is accounted for once: it gives an identifier
    or an entry of the skip list. The rows of a file whose header lacks the
    column are accounted for nowhere: the reader returns two empty lists,
    whatever the rows. *)
Theorem read_accounts_for_every_row {RT : PyRuntime} (f : csv_input) :
  (has_id_column f = true ->
   exists movie_ids skipped,
     read_movie_ids_with_skips (Some f) = inr (movie_ids, skipped)
     /\ (List.length movie_ids + List.length skipped
         = List.length (id_cells f))%nat)
  /\ (has_id_column f = false -> fieldnames f <> None ->
      read_movie_ids_with_skips (Some f) = inr ([], [])).
Proof.
  pose proof (read_movie_ids_with_skips_cases (Some f)) as H.
  cbv beta iota in H.
  unfold has_id_column in *.
  destruct (fieldnames f) as [names|]; rewrite H.
  - split.
    + intros ->.
      destruct (read_rows (id_cells f) 2 [] [] []) as [movie_ids skipped] eqn:E.
      exists movie_ids, skipped. split; [reflexivity|].
      pose proof (read_rows_count (id_cells f) 2 [] [] []) as Hc.
      rewrite E in Hc. cbn in Hc. lia.
    + now intros ->.
  - split; [discriminate | congruence].
Qed.

Lemma read_accounts_for_every_row_witness :
  exists movie_ids skipped,
    read_movie_ids_with_skips no_valid_id = inr (movie_ids, skipped)
    /\ (List.length movie_ids + List.length skipped = 2)%nat.
Proof.
  apply (read_accounts_for_every_row
           {| fieldnames := Some ["ID"];
              id_cells := [Some "invalid"; Some "-1"] |}).
  reflexivity.
Defined.

(** X20. The skip list is in the order of the file: its row numbers
    increase, from 2, the first row under the header, to the number of the
    last row; each reason is one of the four tags, and a blank entry has
    the empty string for value. *)
Theorem skip_list_in_file_order {RT : PyRuntime} (file : option csv_input)
    (movie_ids : list Z) (skipped : list skipped_row) :
  read_movie_ids_with_skips file = inr (movie_ids, skipped) ->
  StronglySorted Z.lt
    (map (fun entry : skipped_row => snd (fst entry)) skipped)
  /\ Forall (fun entry : skipped_row =>
               2 <= snd (fst entry)
               /\ (exists f,
                      file = Some f /\ has_id_column f = true
                      /\ snd (fst entry) <= Z.of_nat (List.length (id_cells f)) + 1)
               /\ In (snd entry) ["blank"; "non-numeric"; "non-positive"; "duplicate"]
               /\ (snd entry = "blank" -> fst (fst entry) = ""))
            skipped.
Proof.
  pose proof (read_movie_ids_with_skips_cases file) as H.
  destruct file as [f|]; [|rewrite H; intros [= <- <-]; split; constructor].
  destruct (fieldnames f) as [names|]; rewrite H; [|discriminate].
  destruct (has_id_column f) eqn:Ec; [|intros [= <- <-]; split; constructor].
  intros E.
  destruct (read_rows_skips 2 (id_cells f) 2 [] [] []) as [H1 H2];
    [lia | constructor | constructor|].
  injection E as E. rewrite E in H1, H2. cbn [snd] in H1, H2.
  split; [exact H1|]. eapply Forall_impl; [|exact H2].
  intros e (He & Hr & Hb). split; [lia|]. split; [|split; auto].
  exists f. repeat split; [exact Ec | lia].
Qed.

Lemma skip_list_in_file_order_witness :
  StronglySorted Z.lt
    (map (fun entry : skipped_row => snd (fst entry))
         [("invalid", 2, "non-numeric"); ("-1", 3, "non-positive")]).
Proof.
  apply (skip_list_in_file_order no_valid_id []
           [("invalid", 2, "non-numeric"); ("-1", 3, "non-positive")]).
  reflexivity.
Defined.

(** X21. The two readers return the same identifiers, in the same order,
    on every file, and raise on the same files. *)
Theorem readers_agree {RT : PyRuntime} (file : option csv_input) :
  read_movie_ids file
  = match read_movie_ids_with_skips file with
    | inl e => inl e
    | inr (movie_ids, _) => inr movie_ids
    end.
Proof.
  unfold read_movie_ids, read_movie_ids_with_skips.
  destruct file as [f|]; [|reflexivity].
  destruct (lacks_id_column (fieldnames f)) as [e|[|]]; cbn [bind ret];
    [reflexivity | reflexivity|].
  rewrite (read_ids_read_rows (id_cells f) 2 [] [] []).
  now destruct (read_rows (id_cells f) 2 [] [] []).
Qed.

(** X22. An identifier is returned exactly when some row of the file holds
    it: a positive integer, with or without spaces around it, in the column
    [ID]. So no valid identifier is lost, and nothing else is returned. *)
Theorem read_ids_are_the_valid_cells {RT : PyRuntime}
    (file : option csv_input) (movie_ids : list Z) (skipped : list skipped_row)
    (movie_id : Z) :
  read_movie_ids_with_skips file = inr (movie_ids, skipped) ->
  In movie_id movie_ids
  <-> exists f raw_value,
        file = Some f /\ has_id_column f = true
        /\ In raw_value (id_cells f) /\ valid_id raw_value = Some movie_id.
Proof.
  pose proof (read_movie_ids_with_skips_cases file) as H.
  destruct file as [f|].
  - destruct (fieldnames f) as [names|]; rewrite H; [|discriminate].
    destruct (has_id_column f) eqn:Ec.
    + intros E. injection E as E.
      pose proof (read_rows_members (id_cells f) 2 [] [] []
                    ltac:(reflexivity) movie_id) as Hm.
      rewrite E in Hm. cbn [fst In] in Hm. rewrite Hm. split.
      * intros [[]|(c & Hc & Hv)]. now exists f, c.
      * intros (f' & c & [= <-] & _ & Hc & Hv). right. now exists c.
    + intros [= <- <-]. split; [intros []|].
      intros (f' & c & [= <-] & Hc' & _). congruence.
  - rewrite H. intros [= <- <-]. split; [intros []|].
    intros (f' & c & Hf & _). discriminate.
Qed.

Lemma read_ids_are_the_valid_cells_witness :
  In 9999 [550; 9999; 634649]
  <-> exists f raw_value,
        three_ids = Some f /\ has_id_column f = true
        /\ In raw_value (id_cells f) /\ valid_id raw_value = Some 9999.
Proof.
  apply (read_ids_are_the_valid_cells three_ids [550; 9999; 634649] [] 9999).
  reflexivity.
Defined.

(** X23. [write_failed_ids] writes nothing when there is nothing to report;
    otherwise it writes the header and one line per failed identifier and
    per skipped row, each of three cells. *)
Theorem failure_report_shape {RT : PyRuntime}
    (failed_ids : list Z) (skipped_rows : list skipped_row) (output_path : string) :
  match reported_failures (write_failed_ids failed_ids skipped_rows output_path) with
  | None =>
      failed_ids = [] /\ skipped_rows = []
      /\ write_failed_ids failed_ids skipped_rows output_path = []
  | Some lines =>
      (failed_ids <> [] \/ skipped_rows <> [])
      /\ List.length lines
         = S (List.length failed_ids + List.length skipped_rows)
      /\ Forall (fun line => List.length line = 3%nat) lines
  end.
Proof.
  assert (H : List.length (failed_lines failed_ids skipped_rows)
              = S (List.length failed_ids + List.length skipped_rows)
              /\ Forall (fun line => List.length line = 3%nat)
                        (failed_lines failed_ids skipped_rows)).
  { unfold failed_lines. split.
    - cbn [List.length]. rewrite length_app, !length_map.
      now rewrite (Permutation_length (sort_by_perm _ _ failed_ids)).
    - constructor; [reflexivity|]. apply Forall_app. split.
      + apply Forall_map, Forall_forall. reflexivity.
      + apply Forall_map, Forall_forall. now intros [[raw rn] reason] _. }
  destruct failed_ids as [|mid rest], skipped_rows as [|entry others];
    cbn [write_failed_ids reported_failures].
  - repeat split.
  - split; [right; discriminate | exact H].
  - split; [left; discriminate | exact H].
  - split; [left; discriminate | exact H].
Qed.

Section SheetFacts.
Context {RT : PyRuntime}.

Lemma style_cols_cells (row : nat) (cols : list nat) :
  forall (sheet : Worksheet) (r c : nat),
    cells (fold_left (fun sh col => set_style row col sh) cols sheet) r c
    = if (Nat.eqb r row && existsb (Nat.eqb c) cols)%bool
      then Some {| value := match cells sheet row c with
                            | Some cell => value cell
                            | None => NoValue
                            end;
                   font_bold := true; fill := Some red |}
      else cells sheet r c.
Proof.
  induction cols as [|col rest IH]; intros sheet r c; cbn [fold_left existsb].
  - now rewrite andb_false_r.
  - rewrite IH. cbn [set_style cells]. rewrite Nat.eqb_refl. cbn [andb].
    destruct (Nat.eqb_spec r row) as [->|Hr]; cbn [andb]; [|reflexivity].
    destruct (Nat.eqb_spec c col) as [->|Hc]; cbn [orb].
    + now destruct (existsb (Nat.eqb col) rest).
    + reflexivity.
Qed.

Lemma style_cols_rows (row : nat) (cols : list nat) :
  forall sheet : Worksheet,
    current_row (fold_left (fun sh col => set_style row col sh) cols sheet)
    = current_row sheet
    /\ last_row (fold_left (fun sh col => set_style row col sh) cols sheet)
       = match cols with
         | [] => last_row sheet
         | _ => Nat.max (last_row sheet) row
         end
    /\ sheet_title (fold_left (fun sh col => set_style row col sh) cols sheet)
       = sheet_title sheet
    /\ freeze_panes (fold_left (fun sh col => set_style row col sh) cols sheet)
       = freeze_panes sheet.
Proof.
  induction cols as [|col rest IH]; intros sheet; cbn [fold_left];
    [repeat split|].
  destruct (IH (set_style row col sheet)) as (H1 & H2 & H3 & H4).
  rewrite H1, H2, H3, H4. cbn [set_style current_row last_row sheet_title
                                 freeze_panes].
  repeat split.
  destruct rest; [reflexivity | now rewrite <- Nat.max_assoc, Nat.max_id].
Qed.

Lemma stored_values_cell (movie : MovieRow) (c : nat) :
  (Nat.leb 1 c && Nat.leb c 4)%bool = true ->
  exists v, nth_error (stored_values movie) (c - 1) = Some v.
Proof.
  intros H. apply andb_prop in H. destruct H as [H1 H2].
  apply Nat.leb_le in H1, H2.
  assert (Hc : (c - 1 < List.length (stored_values movie))%nat) by (cbn; lia).
  apply nth_error_Some in Hc.
  destruct (nth_error (stored_values movie) (c - 1)) as [v|]; [now exists v|].
  now destruct Hc.
Qed.

(** One turn of the loop: the row of the film goes under the rows there
    are, styled when the film is an action film, and nothing else moves. *)
Lemma write_movie_step (movie : MovieRow) (sheet : Worksheet) :
  current_row sheet = last_row sheet ->
  let sheet1 := store_row (stored_values movie) sheet in
  let sheet2 :=
    if is_action movie then
      fold_left (fun sh col => set_style (max_row sheet1) col sh)
                (seq 1 (List.length headers)) sheet1
    else sheet1 in
  current_row sheet2 = S (current_row sheet)
  /\ last_row sheet2 = S (current_row sheet)
  /\ sheet_title sheet2 = sheet_title sheet
  /\ freeze_panes sheet2 = freeze_panes sheet
  /\ forall r c,
       cells sheet2 r c
       = if (Nat.eqb r (S (current_row sheet)) && Nat.leb 1 c && Nat.leb c 4)%bool
         then option_map (styled movie) (nth_error (stored_values movie) (c - 1))
         else cells sheet r c.
Proof.
  intros Hrows sheet1 sheet2.
  assert (Hmax : max_row sheet1 = S (current_row sheet)).
  { unfold max_row, sheet1, store_row, stored_values.
    cbv beta iota zeta. cbn [last_row current_row]. rewrite <- Hrows. lia. }
  assert (Hcells1 : forall r c,
             cells sheet1 r c
             = if (Nat.eqb r (S (current_row sheet)) && Nat.leb 1 c
                   && Nat.leb c 4)%bool
               then option_map plain (nth_error (stored_values movie) (c - 1))
               else cells sheet r c) by reflexivity.
  assert (Hcols : forall c,
             existsb (Nat.eqb c) [1; 2; 3; 4]%nat
             = (Nat.leb 1 c && Nat.leb c 4)%bool).
  { intros c. cbn.
    destruct c as [|[|[|[|[|c]]]]]; reflexivity. }
  subst sheet2. destruct (is_action movie) eqn:Ea.
  - destruct (style_cols_rows (max_row sheet1) (seq 1 (List.length headers)) sheet1)
      as (H1 & H2 & H3 & H4).
    rewrite H1, H2, H3, H4, Hmax. cbn [List.length headers seq].
    repeat split; [cbn; rewrite <- Hrows; lia|].
    intros r c. rewrite style_cols_cells, Hcols.
    destruct (Nat.eqb r (S (current_row sheet))) eqn:Er; cbn [andb].
    + apply Nat.eqb_eq in Er. subst r.
      rewrite Hcells1, Nat.eqb_refl. cbn [andb].
      destruct (Nat.leb 1 c && Nat.leb c 4)%bool eqn:Ec; [|reflexivity].
      destruct (stored_values_cell movie c Ec) as [v ->].
      unfold styled. cbn. now rewrite Ea.
    + rewrite Hcells1, Er. reflexivity.
  - repeat split; [cbn; rewrite <- Hrows; lia|].
    intros r c. rewrite Hcells1. rewrite <- !andb_assoc.
    destruct (Nat.eqb r (S (current_row sheet))); cbn [andb]; [|reflexivity].
    destruct (Nat.leb 1 c && Nat.leb c 4)%bool eqn:Ec; [|reflexivity].
    destruct (stored_values_cell movie c Ec) as [v ->].
    unfold styled, plain. cbn. now rewrite Ea.
Qed.

(** The loop, from any sheet whose rows were all appended, when the cells
    take the strings of every row. *)
Lemma write_movies_spec (rows : list MovieRow) :
  Forall (fun movie => row_accepted movie = true) rows ->
  forall sheet : Worksheet,
    current_row sheet = last_row sheet ->
    exists written,
      write_movies rows sheet = inr written
      /\ current_row written = (current_row sheet + List.length rows)%nat
      /\ last_row written = (current_row sheet + List.length rows)%nat
      /\ sheet_title written = sheet_title sheet
      /\ freeze_panes written = freeze_panes sheet
      /\ (forall r c, (r <= current_row sheet)%nat ->
            cells written r c = cells sheet r c)
      /\ (forall r c, (current_row sheet + List.length rows < r)%nat ->
            cells written r c = cells sheet r c)
      /\ (forall i movie c,
            nth_error rows i = Some movie ->
            cells written (current_row sheet + 1 + i) c
            = if (Nat.leb 1 c && Nat.leb c 4)%bool
              then option_map (styled movie)
                     (nth_error (stored_values movie) (c - 1))
              else cells sheet (current_row sheet + 1 + i) c).
Proof.
  induction 1 as [|movie rest Hm _ IH]; intros sheet Hrows.
  - exists sheet. cbn [write_movies List.length]. rewrite Nat.add_0_r.
    repeat split; auto. intros [|i] movie c H; discriminate H.
  - cbn [write_movies List.length]. unfold append_row.
    rewrite (check_values_row movie Hm). cbn [bind ret].
    destruct (write_movie_step movie sheet Hrows) as (H1 & H2 & H3 & H4 & H5).
    set (sheet2 := if is_action movie then _ else _) in *.
    destruct (IH sheet2 ltac:(congruence))
      as (written & E & I1 & I2 & I3 & I4 & I5 & I6 & I7).
    exists written. split; [exact E|].
    rewrite I1, I2, I3, I4, H1, H3, H4.
    split; [lia|]. split; [lia|]. split; [reflexivity|]. split; [reflexivity|].
    split; [|split].
    + intros r c Hr. rewrite I5 by lia. rewrite H5.
      destruct (Nat.eqb_spec r (S (current_row sheet))); [lia | reflexivity].
    + intros r c Hr. rewrite I6 by lia. rewrite H5.
      destruct (Nat.eqb_spec r (S (current_row sheet))); [lia | reflexivity].
    + intros [|i] m c Hmi.
      * injection Hmi as <-. rewrite I5 by lia. rewrite H5.
        replace (current_row sheet + 1 + 0)%nat with (S (current_row sheet)) by lia.
        rewrite Nat.eqb_refl. cbn [andb]. reflexivity.
      * cbn [nth_error] in Hmi.
        replace (current_row sheet + 1 + S i)%nat
          with (current_row sheet2 + 1 + i)%nat by lia.
        rewrite (I7 i m c Hmi). rewrite H5.
        destruct (Nat.leb 1 c && Nat.leb c 4)%bool; [reflexivity|].
        destruct (Nat.eqb_spec (current_row sheet2 + 1 + i)
                               (S (current_row sheet))); [lia | reflexivity].
Qed.

(** A string that is not longer than [n] is its own prefix of length
    [n]. *)
Lemma prefix_short (n : nat) (s : string) :
  (String.length s <= n)%nat -> prefix n s = s.
Proof.
  revert n. induction s as [|c s IH]; intros n H; [reflexivity|].
  destruct n as [|n]; cbn in H; [lia|]. cbn [prefix]. f_equal. apply IH. lia.
Qed.
End SheetFacts.

(** X24. When the cells take the strings of every film (no title and no
    text of genres has, among the 32767 characters a cell keeps, a control
    character that [openpyxl] refuses), the sheet [write_excel] builds is
    named "Movies", frozen under its first row, and has one row per film
    under the header, in the order of the films: row [i + 2] holds the
    identifier, the title, the score and the genres joined by ", " of film
    [i], the two strings cut to the length a cell keeps, which leaves the
    strings that are not longer as they are, and its four cells are bold on
    red exactly when the film is an action film; the header is never styled
    and no other cell exists. When the cells refuse a string of a film, no
    sheet is built: the call raises [IllegalCharacterError]. *)
Theorem movies_sheet_layout {RT : PyRuntime} (rows : list MovieRow) :
  (Forall (fun movie => row_accepted movie = true) rows ->
   exists sheet,
     movies_sheet rows = inr sheet
     /\ sheet_title sheet = "Movies"
     /\ freeze_panes sheet = Some "A2"
     /\ max_row sheet = S (List.length rows)
     /\ (forall c,
           cells sheet 1 c
           = if (Nat.leb 1 c && Nat.leb c 4)%bool
             then option_map (fun h => plain (StrValue h))
                             (nth_error ["ID"; "Title"; "Vote Average"; "Genres"]
                                        (c - 1))
             else None)
     /\ (forall i movie c,
           nth_error rows i = Some movie ->
           cells sheet (i + 2) c
           = if (Nat.leb 1 c && Nat.leb c 4)%bool
             then option_map
                    (fun v => {| value := v; font_bold := is_action movie;
                                 fill := if is_action movie then Some "FFC7CE"
                                         else None |})
                    (nth_error
                       [IntValue (id movie);
                        StrValue (prefix max_cell_length (title movie));
                        match vote_average movie with
                        | Some x => FloatValue x
                        | None => NoValue
                        end;
                        StrValue (prefix max_cell_length
                                    (String.concat ", " (genres movie)))]
                       (c - 1))
             else None)
     /\ (forall r c, (S (List.length rows) < r)%nat -> cells sheet r c = None))
  /\ (Exists (fun movie => row_accepted movie = false) rows ->
      movies_sheet rows = inl IllegalCharacterError)
  /\ (forall s, (String.length s <= max_cell_length)%nat ->
        prefix max_cell_length s = s).
Proof.
  split; [|split; [apply movies_sheet_raises|]].
  - intros Hacc. unfold movies_sheet, append_row.
    rewrite check_values_headers. cbn [bind ret].
    set (sheet0 := store_row (map StrValue headers)
                     (set_freeze_panes "A2" (set_title "Movies" new_sheet))).
    destruct (write_movies_spec rows Hacc sheet0 eq_refl)
      as (sheet & E & H1 & H2 & H3 & H4 & H5 & H6 & H7).
    exists sheet. split; [exact E|].
    change (current_row sheet0) with 1%nat in *.
    assert (Hc0 : forall r c,
               cells sheet0 r c
               = if (Nat.eqb r 1 && (Nat.leb 1 c && Nat.leb c 4))%bool
                 then option_map plain
                        (nth_error (map StrValue headers) (c - 1))
                 else None).
    { intros r c. cbn [sheet0 store_row cells]. rewrite <- andb_assoc.
      reflexivity. }
    change (sheet_title sheet0) with "Movies" in H3.
    change (freeze_panes sheet0) with (Some "A2") in H4.
    clearbody sheet0.
    split; [exact H3|]. split; [exact H4|].
    split; [unfold max_row; rewrite H2; lia|].
    split; [|split].
    + intros c. rewrite H5 by lia. rewrite Hc0. cbn [Nat.eqb andb].
      destruct (Nat.leb 1 c && Nat.leb c 4)%bool; [|reflexivity].
      rewrite nth_error_map. unfold headers.
      now destruct (nth_error _ (c - 1)).
    + intros i movie c Hm.
      replace (i + 2)%nat with (1 + 1 + i)%nat by lia.
      rewrite (H7 i movie c Hm).
      destruct (Nat.leb 1 c && Nat.leb c 4)%bool eqn:Ec; [reflexivity|].
      rewrite Hc0, Ec. now rewrite andb_false_r.
    + intros r c Hr. rewrite H6 by lia. rewrite Hc0.
      replace (Nat.eqb r 1) with false; [reflexivity|].
      symmetry. apply Nat.eqb_neq. lia.
  - intros s Hs. now apply prefix_short.
Qed.

Lemma movies_sheet_layout_witness :
  exists sheet,
    movies_sheet two_rows = inr sheet
    /\ option_map font_bold (cells sheet 2 4) = Some true
    /\ option_map font_bold (cells sheet 3 4) = Some false
    /\ option_map font_bold (cells sheet 1 1) = Some false
    /\ max_row sheet = 3%nat.
Proof.
  destruct (movies_sheet_layout two_rows) as [H _].
  destruct H as (sheet & E & _ & _ & Hmax & Hhead & Hrows & _).
  - repeat constructor.
  - exists sheet. split; [exact E|].
    split; [|split; [|split; [|exact Hmax]]].
    + exact (f_equal (option_map font_bold) (Hrows 0%nat _ 4%nat eq_refl)).
    + exact (f_equal (option_map font_bold) (Hrows 1%nat _ 4%nat eq_refl)).
    + exact (f_equal (option_map font_bold) (Hhead 1%nat)).
Defined.







(** * The time a task sleeps *)

Section SleepFacts.
Context {RT : PyRuntime}.
Variable w : World.
Variable self : TMDBClient.
Variable movie_id : Z.

(** The sleeps of the loop are those of its first iterations. *)
Lemma sleeps_prefix (todo : list Z) :
  exists m,
    sleeps (fst (attempts w self movie_id todo))
    = map (total_wait_time w self movie_id) (firstn m todo).
Proof.
  induction todo as [|k rest [m IH]]; [now exists 0%nat|].
  destruct (attempts_shape w self movie_id k rest)
    as [(_ & H & _)|(_ & lg & E)].
  - exists 0%nat. now rewrite H.
  - exists (S m). rewrite E. cbn [fst sleeps firstn map]. now rewrite IH.
Qed.

Lemma sleeps_app (a b : list event) : sleeps (a ++ b) = sleeps a ++ sleeps b.
Proof.
  induction a as [|e a IH]; [reflexivity|].
  destruct e; cbn [app sleeps]; now rewrite IH.
Qed.

Lemma get_movie_data_sleeps :
  sleeps (fst (get_movie_data w self movie_id))
  = sleeps (fst (fetch_movie_details w self movie_id)).
Proof.
  unfold get_movie_data.
  destruct (fetch_movie_details w self movie_id) as [tr [e|api_data]];
    [reflexivity|].
  destruct (negb (truthy api_data)); cbn [fst]; [|reflexivity].
  rewrite sleeps_app. cbn. apply app_nil_r.
Qed.
End SleepFacts.

(** X26. With the client [main] makes (3 retries, 1 second of initial
    backoff) the sleeps of a task add up to at most 17 seconds: 1 + 2 + 4 +
    8 seconds of backoff and four times at most half a second of jitter. *)
Theorem task_sleeps_at_most_17_seconds {RT : PyRuntime}
    (w : World) (key : string) (movie_id : Z) :
  (forall j, (0 <= random w movie_id j)%Q /\ (random w movie_id j < 1)%Q) ->
  (total_slept (fst (get_movie_data w (new_client key) movie_id)) <= 17)%Q.
Proof.
  intros Hrand. unfold total_slept. rewrite get_movie_data_sleeps.
  unfold fetch_movie_details.
  destruct (sleeps_prefix w (new_client key) movie_id
              (range (max_retry_attempts (new_client key) + 1))) as [m ->].
  change (range (max_retry_attempts (new_client key) + 1)) with [0; 1; 2; 3].
  assert (Hj : forall k,
             (0 <= uniform 0 (1 # 2) (random w movie_id k))%Q
             /\ (uniform 0 (1 # 2) (random w movie_id k) <= 1 # 2)%Q).
  { intros k. destruct (Hrand k) as [H0 H1].
    apply uniform_range; [lra | exact H0 | exact H1]. }
  pose proof (Hj 0) as [L0 U0]. pose proof (Hj 1) as [L1 U1].
  pose proof (Hj 2) as [L2 U2]. pose proof (Hj 3) as [L3 U3].
  destruct m as [|[|[|[|m]]]]; cbn [firstn map fold_right];
    rewrite ?firstn_nil; cbn [map fold_right];
    unfold total_wait_time; cbn [initial_backoff_seconds new_client];
    try change (inject_Z (2 ^ 0)) with 1%Q;
    try change (inject_Z (2 ^ 1)) with 2%Q;
    try change (inject_Z (2 ^ 2)) with 4%Q;
    try change (inject_Z (2 ^ 3)) with 8%Q;
    lra.
Qed.

Lemma task_sleeps_at_most_17_seconds_witness :
  (total_slept
     (fst (get_movie_data (always (Response 500 JNull)) (new_client "key") 550))
   <= 17)%Q.
Proof.
  apply (task_sleeps_at_most_17_seconds (always (Response 500 JNull)) "key" 550).
  intros j. split; [discriminate | reflexivity].
Defined.
